(** * EIR-auto-GP: the command-line entry point [eir_auto_gp/run.py]

    A shallow embedding of the validation and configuration code of
    [run.py], and the properties of it that the specification states.

    - An [argparse.Namespace] is a record with one field per option that
      [get_argument_parser] declares; optional string options hold
      [None] (Python's [None]) or [Some s].
    - Namespaces are Python objects: they live in a heap and are passed by
      reference.  [copy] allocates a new object, attribute assignment
      updates the heap in place.
    - A [raise] is an [outcome] of the computation; everything the code
      does to the outside (logging, building the root task, handing it to
      the scheduler) is appended to a trace.
    - What the code only reads from the outside (the file system, the
      header that pandas reads, the executable search path) and the
      functions it imports from elsewhere are variables of [Section Run].
      [Path.exists] and [pd.read_csv] are called without any guard, so
      they are given with the errors they may raise, which the code lets
      through.
    - The attributes that every namespace has from its class are a
      variable of [Section Attributes]. *)

From Stdlib Require Import ZArith String Ascii List.
From stdpp Require Import gmap strings list fin_maps.

Local Open Scope string_scope.

(** ** Python values *)

(** A [float] is kept as its IEEE-754 binary64 bit pattern: the code never
    computes with it, it only copies it from the namespace to a dict. *)
Record pyfloat := Float64 { float_bits : Z }.

(** The values that namespace attributes and configuration dicts hold;
    [VObject] is any other object, such as a method of the class. *)
Inductive value :=
| VNone
| VStr (s : string)
| VInt (z : Z)
| VFloat (f : pyfloat)
| VBool (b : bool)
| VList (l : list string)
| VObject (repr : string).

Definition of_optional (o : option string) : value :=
  match o with
  | None => VNone
  | Some s => VStr s
  end.

(** [bool(x)] for an [Optional[str]]: [None] and the empty string are
    falsy, every other string is truthy. *)
Definition truthy (o : option string) : bool :=
  match o with
  | None => false
  | Some s => negb (String.eqb s "")
  end.

(** ** [str.rstrip(chars)] *)

Fixpoint char_in (c : ascii) (chars : string) : bool :=
  match chars with
  | EmptyString => false
  | String d rest => Ascii.eqb c d || char_in c rest
  end.

(** Removes the longest suffix made only of characters of [chars]. *)
Fixpoint rstrip (chars s : string) : string :=
  match s with
  | EmptyString => EmptyString
  | String c rest =>
      match rstrip chars rest with
      | EmptyString => if char_in c chars then EmptyString else String c EmptyString
      | String _ _ as kept => String c kept
      end
  end.

(** [n] copies of the path separator. *)
Fixpoint separators (n : nat) : string :=
  match n with
  | O => EmptyString
  | S k => String "/" (separators k)
  end.

(** Whether the last character of [s] is the path separator. *)
Fixpoint ends_with_separator (s : string) : bool :=
  match s with
  | EmptyString => false
  | String c EmptyString => Ascii.eqb c "/"
  | String _ rest => ends_with_separator rest
  end.

(** ** The arguments record *)

(** One field per [parser.add_argument] of [get_argument_parser], in the
    order of declaration. *)
Record Namespace := mkNamespace {
  genotype_data_path : string;
  label_file_path : string;
  global_output_folder : option string;
  data_output_folder : option string;
  feature_selection_output_folder : option string;
  modelling_output_folder : option string;
  analysis_output_folder : option string;
  output_name : string;
  pre_split_folder : option string;
  feature_selection : option string;
  n_dl_feature_selection_folds : Z;
  gwas_p_value_threshold : pyfloat;
  folds : string;
  input_cat_columns : list string;
  input_con_columns : list string;
  output_cat_columns : list string;
  output_con_columns : list string;
  do_test : bool
}.

(** The names of the fields the parser declares. *)
Definition cli_fields : list string :=
  [ "genotype_data_path"; "label_file_path"; "global_output_folder";
    "data_output_folder"; "feature_selection_output_folder";
    "modelling_output_folder"; "analysis_output_folder"; "output_name";
    "pre_split_folder"; "feature_selection"; "n_dl_feature_selection_folds";
    "gwas_p_value_threshold"; "folds"; "input_cat_columns";
    "input_con_columns"; "output_cat_columns"; "output_con_columns";
    "do_test" ].

(** [vars(namespace)]: the attribute dict of the object. *)
Definition vars (ns : Namespace) : list (string * value) :=
  [ ("genotype_data_path", VStr (genotype_data_path ns));
    ("label_file_path", VStr (label_file_path ns));
    ("global_output_folder", of_optional (global_output_folder ns));
    ("data_output_folder", of_optional (data_output_folder ns));
    ("feature_selection_output_folder",
       of_optional (feature_selection_output_folder ns));
    ("modelling_output_folder", of_optional (modelling_output_folder ns));
    ("analysis_output_folder", of_optional (analysis_output_folder ns));
    ("output_name", VStr (output_name ns));
    ("pre_split_folder", of_optional (pre_split_folder ns));
    ("feature_selection", of_optional (feature_selection ns));
    ("n_dl_feature_selection_folds", VInt (n_dl_feature_selection_folds ns));
    ("gwas_p_value_threshold", VFloat (gwas_p_value_threshold ns));
    ("folds", VStr (folds ns));
    ("input_cat_columns", VList (input_cat_columns ns));
    ("input_con_columns", VList (input_con_columns ns));
    ("output_cat_columns", VList (output_cat_columns ns));
    ("output_con_columns", VList (output_con_columns ns));
    ("do_test", VBool (do_test ns)) ].

(** Attribute assignment, for the five attributes the code assigns to. *)
Definition set_data_output_folder (v : option string) (ns : Namespace) :=
  mkNamespace (genotype_data_path ns) (label_file_path ns)
    (global_output_folder ns) v (feature_selection_output_folder ns)
    (modelling_output_folder ns) (analysis_output_folder ns) (output_name ns)
    (pre_split_folder ns) (feature_selection ns)
    (n_dl_feature_selection_folds ns) (gwas_p_value_threshold ns) (folds ns)
    (input_cat_columns ns) (input_con_columns ns) (output_cat_columns ns)
    (output_con_columns ns) (do_test ns).

Definition set_feature_selection_output_folder (v : option string) (ns : Namespace) :=
  mkNamespace (genotype_data_path ns) (label_file_path ns)
    (global_output_folder ns) (data_output_folder ns) v
    (modelling_output_folder ns) (analysis_output_folder ns) (output_name ns)
    (pre_split_folder ns) (feature_selection ns)
    (n_dl_feature_selection_folds ns) (gwas_p_value_threshold ns) (folds ns)
    (input_cat_columns ns) (input_con_columns ns) (output_cat_columns ns)
    (output_con_columns ns) (do_test ns).

Definition set_modelling_output_folder (v : option string) (ns : Namespace) :=
  mkNamespace (genotype_data_path ns) (label_file_path ns)
    (global_output_folder ns) (data_output_folder ns)
    (feature_selection_output_folder ns) v (analysis_output_folder ns)
    (output_name ns) (pre_split_folder ns) (feature_selection ns)
    (n_dl_feature_selection_folds ns) (gwas_p_value_threshold ns) (folds ns)
    (input_cat_columns ns) (input_con_columns ns) (output_cat_columns ns)
    (output_con_columns ns) (do_test ns).

Definition set_analysis_output_folder (v : option string) (ns : Namespace) :=
  mkNamespace (genotype_data_path ns) (label_file_path ns)
    (global_output_folder ns) (data_output_folder ns)
    (feature_selection_output_folder ns) (modelling_output_folder ns) v
    (output_name ns) (pre_split_folder ns) (feature_selection ns)
    (n_dl_feature_selection_folds ns) (gwas_p_value_threshold ns) (folds ns)
    (input_cat_columns ns) (input_con_columns ns) (output_cat_columns ns)
    (output_con_columns ns) (do_test ns).

Definition set_pre_split_folder (v : option string) (ns : Namespace) :=
  mkNamespace (genotype_data_path ns) (label_file_path ns)
    (global_output_folder ns) (data_output_folder ns)
    (feature_selection_output_folder ns) (modelling_output_folder ns)
    (analysis_output_folder ns) (output_name ns) v (feature_selection ns)
    (n_dl_feature_selection_folds ns) (gwas_p_value_threshold ns) (folds ns)
    (input_cat_columns ns) (input_con_columns ns) (output_cat_columns ns)
    (output_con_columns ns) (do_test ns).

(** ** Exceptions, outcomes and the heap *)

(** Every [raise] of [run.py] raises a [ValueError]; a [getattr] of a name
    the object lacks raises an [AttributeError]; the calls to the file
    system may raise an [OSError] ([IsADirectoryError], [PermissionError]
    and the like). *)
Inductive exn :=
| ValueError (msg : string)
| AttributeError (name : string)
| OSError (msg : string).

(** The specification calls the [ValueError]s of this module
    [ConfigurationError]. *)
Definition ConfigurationError (e : exn) : Prop := ∃ msg, e = ValueError msg.

Inductive outcome (A : Type) :=
| Return (a : A)
| Raise (e : exn).
Arguments Return {A} a.
Arguments Raise {A} e.

#[global] Instance outcome_ret : MRet outcome := λ A a, Return a.
#[global] Instance outcome_bind : MBind outcome := λ A B f m,
  match m with
  | Return a => f a
  | Raise e => Raise e
  end.

(** The stage configuration dicts. *)
Abbreviation config := (gmap string value).

(** The root task: [RunAnalysisWrapper(folds=..., data_config=..., ...)]. *)
Record RunAnalysisWrapper := mkRunAnalysisWrapper {
  task_folds : string;
  task_data_config : config;
  task_feature_selection_config : config;
  task_modelling_config : config;
  task_analysis_config : config
}.

(** What a run does, in program order. [Call f] records that [run] has
    called [f]; the other events are the effects on the outside. *)
Inductive event :=
| Call (fn : string)
| LoggerInfo (msg : string)
| Construct (task : RunAnalysisWrapper)
| LuigiBuild (tasks : list RunAnalysisWrapper) (workers : Z) (local_scheduler : bool).

(** Object references. *)
Abbreviation ref := positive.

Record state := mkState {
  heap : gmap ref Namespace;
  trace : list event
}.

(** Computations that read and write the heap, append to the trace and
    may raise. *)
Definition M (A : Type) : Type := state → outcome A * state.

#[global] Instance M_ret : MRet M := λ A a st, (Return a, st).
#[global] Instance M_bind : MBind M := λ A B f m st,
  match m st with
  | (Return a, st') => f a st'
  | (Raise e, st') => (Raise e, st')
  end.

Definition raise {A} (e : exn) : M A := λ st, (Raise e, st).

(** Runs a computation that has no effect but may raise. *)
Definition lift {A} (o : outcome A) : M A := λ st, (o, st).

Definition emit (ev : event) : M unit :=
  λ st, (Return tt, mkState (heap st) (trace st ++ [ev])).

(** Reads the object a reference points to. A dangling reference cannot
    occur in Python; the model raises on it. *)
Definition deref (r : ref) : M Namespace := λ st,
  match heap st !! r with
  | Some ns => (Return ns, st)
  | None => (Raise (AttributeError "dangling reference"), st)
  end.

(** Allocates a new object. *)
Definition alloc (ns : Namespace) : M ref := λ st,
  let r := fresh (dom (heap st)) in
  (Return r, mkState (<[r := ns]> (heap st)) (trace st)).

(** Overwrites the object at [r]. *)
Definition store (r : ref) (ns : Namespace) : M unit := λ st,
  (Return tt, mkState (<[r := ns]> (heap st)) (trace st)).

(** [copy(obj)]: a new object with the same attribute values. *)
Definition copy (r : ref) : M ref :=
  ns ← deref r; alloc ns.

(** [obj.attr = v], given as the update of the record. *)
Definition setattr (r : ref) (upd : Namespace → Namespace) : M unit :=
  ns ← deref r; store r (upd ns).

(** [obj.attr]. *)
Definition getattr {A} (r : ref) (field : Namespace → A) : M A :=
  ns ← deref r; mret (field ns).

Definition call {A} (fn : string) (m : M A) : M A :=
  emit (Call fn);; m.

(** An f-string field holding an [Optional[str]]. *)
Definition format_optional (o : option string) : string :=
  match o with
  | None => "None"
  | Some s => s
  end.

(** [o.rstrip(chars)] on an [Optional[str]]: [None] has no such method. *)
Definition rstrip_method (o : option string) (chars : string) : M string :=
  match o with
  | Some s => mret (rstrip chars s)
  | None => raise (AttributeError "rstrip")
  end.

(** Lookup in an attribute dict. *)
Fixpoint assoc (key : string) (l : list (string * value)) : option value :=
  match l with
  | [] => None
  | (k, v) :: rest => if String.eqb key k then Some v else assoc key rest
  end.

Section Attributes.

(** The attributes a namespace has from its class, [argparse.Namespace],
    and from [object]: [__class__], [__dict__], [_get_kwargs] and so on.
    None of them has the name of a field the parser declares. *)
Variable class_attribute : string → option value.

(** [getattr(namespace, key)] with the name given as a string: the
    attribute of the object, else the attribute of its class, else an
    [AttributeError]. *)
Definition getattr_by_name (namespace : Namespace) (key : string) : outcome value :=
  match assoc key (vars namespace) with
  | Some v => Return v
  | None =>
      match class_attribute key with
      | Some v => Return v
      | None => Raise (AttributeError key)
      end
  end.

(** [{key: getattr(namespace, key) for key in keys}] *)
Definition extract_from_namespace (namespace : Namespace) (keys : list string)
  : outcome config :=
  foldl (λ acc key,
           d ← acc;
           v ← getattr_by_name namespace key;
           mret (<[key := v]> d))
        (mret ∅) keys.

(** ** The four configuration builders *)

Definition data_keys : list string :=
  [ "genotype_data_path"; "label_file_path"; "data_output_folder";
    "output_name"; "pre_split_folder" ].

Definition build_data_config (cl_args : Namespace) : outcome config :=
  base ← extract_from_namespace cl_args data_keys;
  mret (<["output_format" := VStr "deeplake"]> base).

Definition feature_selection_keys : list string :=
  [ "feature_selection_output_folder"; "feature_selection";
    "n_dl_feature_selection_folds"; "gwas_p_value_threshold" ].

Definition build_feature_selection_config (cl_args : Namespace) : outcome config :=
  extract_from_namespace cl_args feature_selection_keys.

Definition modelling_keys : list string :=
  [ "modelling_output_folder"; "input_cat_columns"; "input_con_columns";
    "output_cat_columns"; "output_con_columns"; "do_test" ].

Definition build_modelling_config (cl_args : Namespace) : outcome config :=
  extract_from_namespace cl_args modelling_keys.

Definition analysis_keys : list string :=
  [ "analysis_output_folder" ].

Definition build_analysis_config (cl_args : Namespace) : outcome config :=
  extract_from_namespace cl_args analysis_keys.

(** ** [validate_targets] *)

Section Formatting.

(** [f"{xs}"] for a list and for a set of strings (Python's [repr]). *)
Variable repr_list : list string → string.
Variable repr_set : gset string → string.

Definition validate_targets (output_con_columns output_cat_columns : list string)
  : outcome unit :=
  if (length output_con_columns =? 0)%nat && (length output_cat_columns =? 0)%nat
  then Raise (ValueError
    "At least one output column must be specified as continuous or categorical.")
  else if (1 <? length output_con_columns + length output_cat_columns)%nat
  then Raise (ValueError
    ("Currently only one target column per run is supported. Got "
     ++ repr_list output_con_columns ++ " continuous and "
     ++ repr_list output_cat_columns ++ " categorical target columns."))
  else Return tt.

Section Run.

(** The outside, as far as the code reads it. *)

(** [Path(p).exists()]: the answer, or the [OSError] it raises (for a
    name that is too long, for instance). *)
Variable path_exists : string → outcome bool.
(** [str(Path(p) / name)] *)
Variable path_join : string → string → string.
(** [pd.read_csv(p, nrows=1).columns]: the names in the header row of [p],
    or the error of the read ([IsADirectoryError] for a directory, a
    [ValueError] of pandas for a file it cannot parse). *)
Variable read_csv_columns : string → outcome (list string).
(** [shutil.which(name)] *)
Variable which : string → option string.

(** Modelled from the spec: [validate_geno_data_path] is imported from
    [eir_auto_gp.preprocess.gwas_pre_selection]; it returns normally or
    fails with a [ConfigurationError], here the message of the error. *)
Variable geno_data_path_error : string → option string.

Definition validate_geno_data_path (geno_data_path : string) : outcome unit :=
  match geno_data_path_error geno_data_path with
  | Some msg => Raise (ValueError msg)
  | None => Return tt
  end.

(** ** [validate_label_file] *)

Definition validate_label_file (label_file_path : string)
    (input_cat_columns input_con_columns
     output_cat_columns output_con_columns : list string) : outcome unit :=
  found ← path_exists label_file_path;
  if negb found
  then Raise (ValueError
    ("Label file path " ++ label_file_path ++ " is invalid. "
     ++ "Expected to find " ++ label_file_path ++ "."))
  else
    columns ← read_csv_columns label_file_path;
    if negb (bool_decide ("ID" ∈ columns))
    then Raise (ValueError
      ("Label file path " ++ label_file_path ++ " is invalid. "
       ++ "Expected to find 'ID' column."))
    else
      let all_columns : gset string :=
        list_to_set (input_cat_columns ++ input_con_columns
                     ++ output_cat_columns ++ output_con_columns) in
      let missing_columns := all_columns ∖ list_to_set (C:=gset string) columns in
      if (0 <? size missing_columns)%nat
      then Raise (ValueError
        ("Label file path " ++ label_file_path ++ " is invalid. "
         ++ "Expected to find columns " ++ repr_set missing_columns ++ "."))
      else Return tt.

(** ** [validate_plink2_exists_in_path] *)

Definition validate_plink2_exists_in_path : outcome unit :=
  match which "plink2" with
  | None => Raise (ValueError
      "plink2 is not installed or not in the path. Please install plink2 and try again.")
  | Some _ => Return tt
  end.

(** ** [parse_output_folders] *)

Definition missing_data_output_folder : string :=
  "Missing data output folder. Either a global output folder or a data output folder must be provided.".

Definition missing_feature_selection_output_folder : string :=
  "Missing feature selection output folder. Either a global output folder or a feature selection output folder must be provided.".

Definition missing_modelling_output_folder : string :=
  "Missing modelling output folder. Either a global output folder or a modelling output folder must be provided.".

Definition missing_analysis_output_folder : string :=
  "Missing analysis output folder. Either a global output folder or a analysis output folder must be provided.".

Definition parse_output_folders (cl_args : ref) : M ref :=
  cl_args_copy ← copy cl_args;
  global ← getattr cl_args_copy global_output_folder;
  (if truthy global then
     gof ← rstrip_method global "/";
     setattr cl_args_copy (set_data_output_folder (Some (gof ++ "/data")));;
     setattr cl_args_copy
       (set_feature_selection_output_folder (Some (gof ++ "/feature_selection")));;
     setattr cl_args_copy (set_modelling_output_folder (Some (gof ++ "/modelling")));;
     setattr cl_args_copy (set_analysis_output_folder (Some (gof ++ "/analysis")))
   else
     data ← getattr cl_args_copy data_output_folder;
     (if negb (truthy data)
      then raise (ValueError missing_data_output_folder) else mret tt);;
     feature ← getattr cl_args_copy feature_selection_output_folder;
     (if negb (truthy feature)
      then raise (ValueError missing_feature_selection_output_folder) else mret tt);;
     modelling ← getattr cl_args_copy modelling_output_folder;
     (if negb (truthy modelling)
      then raise (ValueError missing_modelling_output_folder) else mret tt);;
     analysis ← getattr cl_args_copy analysis_output_folder;
     (if negb (truthy analysis)
      then raise (ValueError missing_analysis_output_folder) else mret tt));;
  mret cl_args_copy.

(** ** [_add_pre_split_folder_if_present] *)

Definition _add_pre_split_folder_if_present (cl_args : ref) : M ref :=
  cl_args_copy ← copy cl_args;
  genotype_path ← getattr cl_args_copy genotype_data_path;
  ids_exists ← lift (path_exists (path_join genotype_path "ids"));
  (if ids_exists : bool then
     setattr cl_args_copy
       (set_pre_split_folder (Some (path_join genotype_path "ids")));;
     found ← getattr cl_args_copy pre_split_folder;
     emit (LoggerInfo
       ("Found pre-split folder " ++ format_optional found ++ ". "
        ++ "in root genotype folder. Using those for train/test split."))
   else mret tt);;
  mret cl_args_copy.

(** ** [run] *)

(** The calls of [run] are recorded in the trace. The construction of the
    root task and [luigi.build] are recorded as events: what they do, and
    whether they raise, is decided outside this module. *)
Definition run (cl_args : ref) : M unit :=
  geno ← getattr cl_args genotype_data_path;
  call "validate_geno_data_path" (lift (validate_geno_data_path geno));;
  args ← deref cl_args;
  call "validate_label_file"
    (lift (validate_label_file (label_file_path args)
             (input_cat_columns args) (input_con_columns args)
             (output_cat_columns args) (output_con_columns args)));;
  args ← deref cl_args;
  call "validate_targets"
    (lift (validate_targets (output_con_columns args) (output_cat_columns args)));;
  call "validate_plink2_exists_in_path" (lift validate_plink2_exists_in_path);;
  cl_args ← call "parse_output_folders" (parse_output_folders cl_args);
  cl_args ← call "_add_pre_split_folder_if_present"
              (_add_pre_split_folder_if_present cl_args);
  args ← deref cl_args;
  data_config ← call "build_data_config" (lift (build_data_config args));
  feature_selection_config ← call "build_feature_selection_config"
                               (lift (build_feature_selection_config args));
  modelling_config ← call "build_modelling_config"
                       (lift (build_modelling_config args));
  analysis_config ← call "build_analysis_config"
                      (lift (build_analysis_config args));
  folds_spec ← getattr cl_args folds;
  let root_task :=
    mkRunAnalysisWrapper folds_spec data_config feature_selection_config
      modelling_config analysis_config in
  emit (Construct root_task);;
  emit (LuigiBuild [root_task] 1 true).


(** ** The four specific output folders

    In the order in which [parse_output_folders] checks them when no
    global output folder is given. *)

Inductive folder := Data | FeatureSelection | Modelling | Analysis.

Definition check_order : list folder :=
  [Data; FeatureSelection; Modelling; Analysis].

Definition folder_of (f : folder) (ns : Namespace) : option string :=
  match f with
  | Data => data_output_folder ns
  | FeatureSelection => feature_selection_output_folder ns
  | Modelling => modelling_output_folder ns
  | Analysis => analysis_output_folder ns
  end.

(** The message of the error raised for a folder that is not given. *)
Definition missing_message (f : folder) : string :=
  match f with
  | Data => missing_data_output_folder
  | FeatureSelection => missing_feature_selection_output_folder
  | Modelling => missing_modelling_output_folder
  | Analysis => missing_analysis_output_folder
  end.

(** The place of a folder in [check_order]. *)
Definition position (f : folder) : nat :=
  match f with
  | Data => 0
  | FeatureSelection => 1
  | Modelling => 2
  | Analysis => 3
  end.

(** A folder counts as missing when its value is falsy, [None] or [""]:
    the code tests [if not cl_args_copy.<folder>]. *)
Definition is_missing (f : folder) (ns : Namespace) : bool :=
  negb (truthy (folder_of f ns)).

(** An [Optional[str]] with the empty string replaced by [None]. *)
Definition absent_if_empty (o : option string) : option string :=
  match o with
  | Some s => if String.eqb s "" then None else Some s
  | None => None
  end.

(** The namespace with every empty output folder replaced by [None]. *)
Definition empty_folders_as_absent (ns : Namespace) : Namespace :=
  mkNamespace (genotype_data_path ns) (label_file_path ns)
    (absent_if_empty (global_output_folder ns))
    (absent_if_empty (data_output_folder ns))
    (absent_if_empty (feature_selection_output_folder ns))
    (absent_if_empty (modelling_output_folder ns))
    (absent_if_empty (analysis_output_folder ns))
    (output_name ns) (pre_split_folder ns) (feature_selection ns)
    (n_dl_feature_selection_folds ns) (gwas_p_value_threshold ns) (folds ns)
    (input_cat_columns ns) (input_con_columns ns) (output_cat_columns ns)
    (output_con_columns ns) (do_test ns).

(** The namespace with all four folders derived from the root [gof]. *)
Definition with_subfolders (gof : string) (ns : Namespace) : Namespace :=
  set_analysis_output_folder (Some (gof ++ "/analysis"))
    (set_modelling_output_folder (Some (gof ++ "/modelling"))
       (set_feature_selection_output_folder (Some (gof ++ "/feature_selection"))
          (set_data_output_folder (Some (gof ++ "/data")) ns))).

(** The calls of [run] that belong to its validation phase. *)
Definition is_validator_call (ev : event) : bool :=
  match ev with
  | Call fn =>
      bool_decide (fn ∈ [ "validate_geno_data_path"; "validate_label_file";
                          "validate_targets"; "validate_plink2_exists_in_path" ])
  | _ => false
  end.

(** The four validators as [run] calls them, in the order of the calls. *)
Definition preflight (ns : Namespace) : list (outcome unit) :=
  [ validate_geno_data_path (genotype_data_path ns);
    validate_label_file (label_file_path ns)
      (input_cat_columns ns) (input_con_columns ns)
      (output_cat_columns ns) (output_con_columns ns);
    validate_targets (output_con_columns ns) (output_cat_columns ns);
    validate_plink2_exists_in_path ].

(** The error of the first check that raises. *)
Fixpoint first_failure (checks : list (outcome unit)) : option exn :=
  match checks with
  | [] => None
  | Raise e :: _ => Some e
  | Return _ :: rest => first_failure rest
  end.

(** Nothing after the validation phase has happened in a stretch of the
    trace: no folder resolution, no pre-split detection, no configuration
    dict built, no root task built or handed to the scheduler. *)
Definition pipeline_untouched (evs : list event) : Prop :=
  (Call "parse_output_folders" ∉ evs) ∧
  (Call "_add_pre_split_folder_if_present" ∉ evs) ∧
  (Call "build_data_config" ∉ evs) ∧
  (Call "build_feature_selection_config" ∉ evs) ∧
  (Call "build_modelling_config" ∉ evs) ∧
  (Call "build_analysis_config" ∉ evs) ∧
  (∀ task, Construct task ∉ evs) ∧
  (∀ tasks workers local_scheduler, LuigiBuild tasks workers local_scheduler ∉ evs).

(** The names of the functions called, in order. *)
Definition calls (evs : list event) : list string :=
  omap (λ ev, match ev with Call fn => Some fn | _ => None end) evs.

(** The entry under [key] of the data config of the task that the last
    event of the trace hands to the scheduler. *)
Definition submitted_config (evs : list event) (key : string) : option value :=
  match last evs with
  | Some (LuigiBuild [task] _ _) => task_data_config task !! key
  | _ => None
  end.

(** ** Sample inputs

    A small outside world and a few argument records, on which the
    theorems below are instantiated. *)

(** The files of the sample world: the folder [geno], and in it the file
    [labels.csv] and the folder [ids]. *)
Definition sample_path_exists (p : string) : outcome bool :=
  Return (bool_decide (p ∈ ["geno"; "geno/labels.csv"; "geno/ids"])).

(** A file system in which [ids] does not exist. *)
Definition sample_path_exists_no_ids (p : string) : outcome bool :=
  Return (bool_decide (p ∈ ["geno"; "geno/labels.csv"])).

(** A file system in which the test for [geno/ids] fails. *)
Definition sample_path_exists_unreadable (p : string) : outcome bool :=
  if String.eqb p "geno/ids"
  then Raise (OSError "[Errno 13] Permission denied: 'geno/ids'")
  else sample_path_exists p.

(** Joins a folder written without trailing separator and a name. *)
Definition sample_path_join (p name : string) : string :=
  p ++ "/" ++ name.

(** Reading the folder [geno] as a table fails; the label file has the
    columns [ID], [phenotype] and [covariate1]. *)
Definition sample_read_csv_columns (p : string) : outcome (list string) :=
  if String.eqb p "geno"
  then Raise (OSError "[Errno 21] Is a directory: 'geno'")
  else Return ["ID"; "phenotype"; "covariate1"].

(** Some of the attributes of the class. *)
Definition sample_class_attribute (key : string) : option value :=
  if bool_decide (key ∈ ["__class__"; "__dict__"; "__module__"; "_get_kwargs";
                         "_get_args"])
  then Some (VObject key) else None.

Definition sample_which (name : string) : option string :=
  if String.eqb name "plink2" then Some "/usr/bin/plink2" else None.

Definition sample_geno_data_path_error (p : string) : option string :=
  if bool_decide (p ∈ ["geno"]) then None else Some "no genotype data".

Definition sample_repr_list (l : list string) : string :=
  "[" ++ String.concat ", " l ++ "]".

Definition sample_repr_set (s : gset string) : string :=
  "{" ++ String.concat ", " (elements s) ++ "}".

(** [--genotype_data_path geno --label_file_path geno/labels.csv
     --global_output_folder out/ --output_cat_columns phenotype
     --input_con_columns covariate1], the other options at their defaults. *)
Definition sample_args : Namespace :=
  {| genotype_data_path := "geno";
     label_file_path := "geno/labels.csv";
     global_output_folder := Some "out/";
     data_output_folder := None;
     feature_selection_output_folder := None;
     modelling_output_folder := None;
     analysis_output_folder := None;
     output_name := "genotype";
     pre_split_folder := None;
     feature_selection := Some "gwas->dl";
     n_dl_feature_selection_folds := 3;
     gwas_p_value_threshold := Float64 0x3F1A36E2EB1C432D;
     folds := "0-5";
     input_cat_columns := [];
     input_con_columns := ["covariate1"];
     output_cat_columns := ["phenotype"];
     output_con_columns := [];
     do_test := false |}.

Definition set_global_output_folder (v : option string) (ns : Namespace) :=
  mkNamespace (genotype_data_path ns) (label_file_path ns) v
    (data_output_folder ns) (feature_selection_output_folder ns)
    (modelling_output_folder ns) (analysis_output_folder ns) (output_name ns)
    (pre_split_folder ns) (feature_selection ns)
    (n_dl_feature_selection_folds ns) (gwas_p_value_threshold ns) (folds ns)
    (input_cat_columns ns) (input_con_columns ns) (output_cat_columns ns)
    (output_con_columns ns) (do_test ns).

(** [--global_output_folder ""] and no specific folder. *)
Definition sample_args_empty_global : Namespace :=
  set_global_output_folder (Some "") sample_args.

(** No global folder, a data folder, and no feature selection folder. *)
Definition sample_args_no_feature_folder : Namespace :=
  set_data_output_folder (Some "out/data")
    (set_modelling_output_folder (Some "out/modelling")
       (set_global_output_folder None sample_args)).

(** No global folder, a data folder, and [""] as the feature selection
    folder. *)
Definition sample_args_empty_feature_folder : Namespace :=
  set_feature_selection_output_folder (Some "") sample_args_no_feature_folder.

(** An explicit [--pre_split_folder my_split]. *)
Definition sample_args_pre_split : Namespace :=
  set_pre_split_folder (Some "my_split") sample_args.

(** [--output_cat_columns phenotype --output_con_columns phenotype2]. *)
Definition sample_args_two_targets : Namespace :=
  {| genotype_data_path := "geno";
     label_file_path := "geno/labels.csv";
     global_output_folder := Some "out/";
     data_output_folder := None;
     feature_selection_output_folder := None;
     modelling_output_folder := None;
     analysis_output_folder := None;
     output_name := "genotype";
     pre_split_folder := None;
     feature_selection := Some "gwas->dl";
     n_dl_feature_selection_folds := 3;
     gwas_p_value_threshold := Float64 0x3F1A36E2EB1C432D;
     folds := "0-5";
     input_cat_columns := [];
     input_con_columns := ["covariate1"];
     output_cat_columns := ["phenotype"];
     output_con_columns := ["phenotype2"];
     do_test := false |}.

(** Two target columns, and the folder [geno] given as label file. *)
Definition sample_args_label_folder : Namespace :=
  {| genotype_data_path := "geno";
     label_file_path := "geno";
     global_output_folder := Some "out/";
     data_output_folder := None;
     feature_selection_output_folder := None;
     modelling_output_folder := None;
     analysis_output_folder := None;
     output_name := "genotype";
     pre_split_folder := None;
     feature_selection := Some "gwas->dl";
     n_dl_feature_selection_folds := 3;
     gwas_p_value_threshold := Float64 0x3F1A36E2EB1C432D;
     folds := "0-5";
     input_cat_columns := [];
     input_con_columns := ["covariate1"];
     output_cat_columns := ["phenotype"];
     output_con_columns := ["phenotype2"];
     do_test := false |}.

(** A heap with one object, at reference [1], and an empty trace. *)
Definition sample_state (ns : Namespace) : state :=
  mkState {[1%positive := ns]} [].

(** ** The two copy-and-patch passes as functions of the record

    What [parse_output_folders] and [_add_pre_split_folder_if_present]
    leave in the copy they return, and what [run] hands to the scheduler,
    each as a function of the record read. They state the lemmas that
    relate the heap computations to the records. *)

(** The record in the copy that [parse_output_folders] returns, or the
    error it raises. *)
Definition folders_resolved (ns : Namespace) : outcome Namespace :=
  if truthy (global_output_folder ns) then
    Return (with_subfolders (rstrip "/" (default "" (global_output_folder ns))) ns)
  else
    match find (λ f, is_missing f ns) check_order with
    | Some f => Raise (ValueError (missing_message f))
    | None => Return ns
    end.

(** The path [ids] under the genotype root. *)
Definition ids_path (ns : Namespace) : string :=
  path_join (genotype_data_path ns) "ids".

(** The record in the copy that [_add_pre_split_folder_if_present]
    returns, given the answer of the test for [ids]. *)
Definition pre_split_detected (ids_exists : bool) (ns : Namespace) : Namespace :=
  if ids_exists
  then set_pre_split_folder (Some (ids_path ns)) ns
  else ns.

(** What [_add_pre_split_folder_if_present] logs. *)
Definition pre_split_log (ids_exists : bool) (ns : Namespace) : list event :=
  if ids_exists
  then [LoggerInfo
          ("Found pre-split folder " ++ ids_path ns ++ ". "
           ++ "in root genotype folder. Using those for train/test split.")]
  else [].

(** The dict of a builder that returned. *)
Definition built (o : outcome config) : config :=
  match o with
  | Return d => d
  | Raise _ => ∅
  end.

(** The root task [run] builds from the resolved record. *)
Definition root_task_of (ns : Namespace) : RunAnalysisWrapper :=
  mkRunAnalysisWrapper (folds ns)
    (built (build_data_config ns))
    (built (build_feature_selection_config ns))
    (built (build_modelling_config ns))
    (built (build_analysis_config ns)).

(** The calls of [run] up to and including folder resolution, and the
    calls of the four builders. *)
Definition calls_to_resolution : list event :=
  [ Call "validate_geno_data_path"; Call "validate_label_file";
    Call "validate_targets"; Call "validate_plink2_exists_in_path";
    Call "parse_output_folders" ].

Definition calls_of_builders : list event :=
  [ Call "build_data_config"; Call "build_feature_selection_config";
    Call "build_modelling_config"; Call "build_analysis_config" ].

(** The attribute names of the four specific output folders. *)
Definition folder_fields : list string :=
  [ "data_output_folder"; "feature_selection_output_folder";
    "modelling_output_folder"; "analysis_output_folder" ].

(** ** The parser's defaults

    The namespace that [get_argument_parser().parse_args] returns when only
    the two required options are given: every other attribute holds the
    [default] of its [add_argument], [None] where it declares none,
    [False] for the [store_true] flag. *)
Definition parser_defaults (genotype_data_path label_file_path : string) : Namespace :=
  {| genotype_data_path := genotype_data_path;
     label_file_path := label_file_path;
     global_output_folder := None;
     data_output_folder := None;
     feature_selection_output_folder := None;
     modelling_output_folder := None;
     analysis_output_folder := None;
     output_name := "genotype";
     pre_split_folder := None;
     feature_selection := Some "gwas->dl";
     n_dl_feature_selection_folds := 3;
     gwas_p_value_threshold := Float64 0x3F1A36E2EB1C432D;
     folds := "0-5";
     input_cat_columns := [];
     input_con_columns := [];
     output_cat_columns := [];
     output_con_columns := [];
     do_test := false |}.

(** Specific folders given with a trailing separator, all four the same,
    and no global folder. *)
Definition sample_args_same_folders : Namespace :=
  set_data_output_folder (Some "out/")
    (set_feature_selection_output_folder (Some "out/")
       (set_modelling_output_folder (Some "out/")
          (set_analysis_output_folder (Some "out/")
             (set_global_output_folder None sample_args)))).

(** [--global_output_folder /]. *)
Definition sample_args_root : Namespace :=
  set_global_output_folder (Some "/") sample_args.

(** * Properties *)

(** ** Facts about [rstrip] *)

Lemma rstrip_separators n : rstrip "/" (separators n) = "".
Proof. induction n as [|n IH]; simpl; [done|]. by rewrite IH. Qed.

Lemma append_String c s t : String c s ++ t = String c (s ++ t).
Proof. reflexivity. Qed.

Lemma rstrip_trailing_separators B n :
  ends_with_separator B = false →
  rstrip "/" (B ++ separators n) = B.
Proof.
  induction B as [|c B IH]; intros Hend.
  - apply rstrip_separators.
  - rewrite append_String. cbn [rstrip]. destruct B as [|d B].
    + change ("" ++ separators n) with (separators n).
      rewrite rstrip_separators.
      cbn in Hend |- *. rewrite orb_false_r. by rewrite Hend.
    + rewrite IH by exact Hend. done.
Qed.

(** ** Stepping through the heap monad *)

Lemma bind_Return {A B} (m : M A) (f : A → M B) st a st' :
  m st = (Return a, st') → (m ≫= f) st = f a st'.
Proof. intros Hm. unfold mbind, M_bind. by rewrite Hm. Qed.

Lemma bind_Raise {A B} (m : M A) (f : A → M B) st e st' :
  m st = (Raise e, st') → (m ≫= f) st = (Raise e, st').
Proof. intros Hm. unfold mbind, M_bind. by rewrite Hm. Qed.

Lemma deref_eq r ns st :
  heap st !! r = Some ns → deref r st = (Return ns, st).
Proof. intros Hr. unfold deref. by rewrite Hr. Qed.

Lemma copy_eq r ns st :
  heap st !! r = Some ns →
  copy r st = (Return (fresh (dom (heap st))),
               mkState (<[fresh (dom (heap st)) := ns]> (heap st)) (trace st)).
Proof. intros Hr. unfold copy. by rewrite (bind_Return _ _ _ _ _ (deref_eq _ _ _ Hr)). Qed.

Lemma getattr_eq {A} r (field : Namespace → A) ns st :
  heap st !! r = Some ns → getattr r field st = (Return (field ns), st).
Proof. intros Hr. unfold getattr. by rewrite (bind_Return _ _ _ _ _ (deref_eq _ _ _ Hr)). Qed.

Lemma setattr_eq r upd ns st :
  heap st !! r = Some ns →
  setattr r upd st = (Return tt, mkState (<[r := upd ns]> (heap st)) (trace st)).
Proof. intros Hr. unfold setattr. by rewrite (bind_Return _ _ _ _ _ (deref_eq _ _ _ Hr)). Qed.

Lemma fresh_ref_not_in (h : gmap ref Namespace) : h !! fresh (dom h) = None.
Proof. apply not_elem_of_dom, is_fresh. Qed.

Lemma fresh_ref_ne (h : gmap ref Namespace) r ns :
  h !! r = Some ns → fresh (dom h) ≠ r.
Proof. intros Hr Heq. rewrite <- Heq, fresh_ref_not_in in Hr. discriminate. Qed.

Lemma emit_eq ev st :
  emit ev st = (Return tt, mkState (heap st) (trace st ++ [ev])).
Proof. reflexivity. Qed.

Lemma ret_eq {A} (a : A) st : mret (M := M) a st = (Return a, st).
Proof. reflexivity. Qed.

Lemma bind_assoc {A B C} (m : M A) (f : A → M B) (g : B → M C) st :
  ((m ≫= f) ≫= g) st = (m ≫= λ a, f a ≫= g) st.
Proof. unfold mbind, M_bind. by destruct (m st) as [[a|e] st']. Qed.

Lemma raise_eq {A} e st : raise (A := A) e st = (Raise e, st).
Proof. reflexivity. Qed.

Lemma lift_eq {A} (o : outcome A) st : lift o st = (o, st).
Proof. reflexivity. Qed.

(** One statement of the program: rewrites [(m ≫= f) st] to [f a st'] when
    [m] is a heap operation whose reference is known to be allocated. *)
Ltac heap_lookup :=
  cbn [heap trace];
  first [ eassumption | apply lookup_insert_eq ].

Ltac mstep :=
  rewrite ?bind_assoc;
  first
    [ erewrite bind_Return by (apply setattr_eq; heap_lookup)
    | erewrite bind_Return by (apply getattr_eq; heap_lookup)
    | erewrite bind_Return by (apply copy_eq; heap_lookup)
    | erewrite bind_Return by (apply deref_eq; heap_lookup)
    | erewrite bind_Return by apply emit_eq
    | erewrite bind_Return by apply ret_eq
    | erewrite bind_Raise by apply raise_eq ];
  cbn [heap trace].

(** ** [parse_output_folders], branch by branch *)

Lemma parse_output_folders_global st l ns G :
  heap st !! l = Some ns →
  global_output_folder ns = Some G →
  G ≠ "" →
  parse_output_folders l st =
    (Return (fresh (dom (heap st))),
     mkState (<[fresh (dom (heap st)) := with_subfolders (rstrip "/" G) ns]> (heap st))
             (trace st)).
Proof.
  intros Hl HG Hne. unfold parse_output_folders.
  do 2 mstep. rewrite HG. unfold truthy.
  destruct (String.eqb_spec G "") as [|_]; [done|]. cbn [negb rstrip_method].
  do 5 mstep. rewrite ret_eq, !insert_insert_eq. done.
Qed.

Lemma parse_output_folders_specific st l ns :
  heap st !! l = Some ns →
  truthy (global_output_folder ns) = false →
  parse_output_folders l st =
    (match find (λ f, is_missing f ns) check_order with
     | Some f => Raise (ValueError (missing_message f))
     | None => Return (fresh (dom (heap st)))
     end,
     mkState (<[fresh (dom (heap st)) := ns]> (heap st)) (trace st)).
Proof.
  intros Hl HG. unfold parse_output_folders.
  do 2 mstep. rewrite HG.
  unfold is_missing. cbn [find check_order folder_of].
  mstep. destruct (truthy (data_output_folder ns)); cbn [negb]; mstep; [|done].
  mstep. destruct (truthy (feature_selection_output_folder ns)); cbn [negb]; mstep; [|done].
  mstep. destruct (truthy (modelling_output_folder ns)); cbn [negb]; mstep; [|done].
  mstep. destruct (truthy (analysis_output_folder ns)); cbn [negb]; mstep; done.
Qed.

Lemma find_first_missing ns f :
  find (λ f, is_missing f ns) check_order = Some f ↔
  is_missing f ns = true ∧
  ∀ f', position f' < position f → is_missing f' ns = false.
Proof.
  cbn [find check_order]. split.
  - intros Hfind.
    destruct (is_missing Data ns) eqn:HD;
      [injection Hfind as <-; split; [done|]; intros []; cbn; lia|].
    destruct (is_missing FeatureSelection ns) eqn:HF;
      [injection Hfind as <-; split; [done|]; intros []; cbn; (done || lia)|].
    destruct (is_missing Modelling ns) eqn:HM;
      [injection Hfind as <-; split; [done|]; intros []; cbn; (done || lia)|].
    destruct (is_missing Analysis ns) eqn:HA; [|done].
    injection Hfind as <-; split; [done|]; intros []; cbn; (done || lia).
  - intros [Hf Hbefore].
    destruct f; cbn in Hbefore.
    + by rewrite Hf.
    + rewrite (Hbefore Data) by (cbn; lia). by rewrite Hf.
    + rewrite (Hbefore Data), (Hbefore FeatureSelection) by (cbn; lia).
      by rewrite Hf.
    + rewrite (Hbefore Data), (Hbefore FeatureSelection),
        (Hbefore Modelling) by (cbn; lia).
      by rewrite Hf.
Qed.

Lemma find_missing_exists ns :
  (∃ f, is_missing f ns = true) →
  ∃ f, find (λ f, is_missing f ns) check_order = Some f.
Proof.
  intros [f Hf]. cbn [find check_order].
  destruct (is_missing Data ns) eqn:HD; [eauto|].
  destruct (is_missing FeatureSelection ns) eqn:HF; [eauto|].
  destruct (is_missing Modelling ns) eqn:HM; [eauto|].
  destruct (is_missing Analysis ns) eqn:HA; [eauto|].
  destruct f; congruence.
Qed.

Lemma missing_message_inj f f' :
  missing_message f' = missing_message f → f' = f.
Proof.
  destruct f, f'; try reflexivity; intros Heq; exfalso;
    apply String.eqb_eq in Heq; vm_compute in Heq; discriminate.
Qed.

Lemma truthy_absent_if_empty o : truthy (absent_if_empty o) = truthy o.
Proof. destruct o as [s|]; [|done]. cbn. by destruct (String.eqb s "") eqn:E; cbn; rewrite ?E. Qed.

Lemma is_missing_empty_folders_as_absent f ns :
  is_missing f (empty_folders_as_absent ns) = is_missing f ns.
Proof. unfold is_missing. destruct f; cbn; by rewrite truthy_absent_if_empty. Qed.

(** ** [_add_pre_split_folder_if_present], branch by branch *)

Lemma add_pre_split_folder_found st l ns :
  heap st !! l = Some ns →
  path_exists (path_join (genotype_data_path ns) "ids") = Return true →
  _add_pre_split_folder_if_present l st =
    (Return (fresh (dom (heap st))),
     mkState
       (<[fresh (dom (heap st)) :=
            set_pre_split_folder (Some (path_join (genotype_data_path ns) "ids")) ns]>
          (heap st))
       (trace st ++
        [LoggerInfo
           ("Found pre-split folder " ++ path_join (genotype_data_path ns) "ids"
            ++ ". " ++ "in root genotype folder. Using those for train/test split.")])).
Proof.
  intros Hl Hids. unfold _add_pre_split_folder_if_present.
  do 2 mstep. rewrite Hids, ?bind_assoc.
  erewrite bind_Return by apply lift_eq. cbv beta iota. do 3 mstep.
  rewrite ret_eq, !insert_insert_eq. done.
Qed.

Lemma add_pre_split_folder_not_found st l ns :
  heap st !! l = Some ns →
  path_exists (path_join (genotype_data_path ns) "ids") = Return false →
  _add_pre_split_folder_if_present l st =
    (Return (fresh (dom (heap st))),
     mkState (<[fresh (dom (heap st)) := ns]> (heap st)) (trace st)).
Proof.
  intros Hl Hids. unfold _add_pre_split_folder_if_present.
  do 2 mstep. rewrite Hids, ?bind_assoc.
  erewrite bind_Return by apply lift_eq. cbv beta iota. by mstep.
Qed.

(** The error of the test for [ids] comes out as it is; the copy has been
    made and nothing has been logged. *)
Lemma add_pre_split_folder_error st l ns e :
  heap st !! l = Some ns →
  path_exists (path_join (genotype_data_path ns) "ids") = Raise e →
  _add_pre_split_folder_if_present l st =
    (Raise e,
     mkState (<[fresh (dom (heap st)) := ns]> (heap st)) (trace st)).
Proof.
  intros Hl Hids. unfold _add_pre_split_folder_if_present.
  do 2 mstep. rewrite Hids, ?bind_assoc.
  by erewrite bind_Raise by apply lift_eq.
Qed.

(** Allocating a new object leaves every existing one as it was. *)
Lemma alloc_frame (h : gmap ref Namespace) ns r :
  r ∈ dom h → <[fresh (dom h) := ns]> h !! r = h !! r.
Proof.
  intros Hr. apply lookup_insert_ne. intros Heq.
  apply (is_fresh (dom h)). by rewrite Heq.
Qed.

(** * The claims of the specification *)

(** ** The validators *)

Lemma validate_targets_many (output_con_columns output_cat_columns : list string) :
  length output_con_columns + length output_cat_columns > 1 →
  ∃ msg, validate_targets output_con_columns output_cat_columns
         = Raise (ValueError msg).
Proof.
  intros Hmany. unfold validate_targets.
  destruct (_ && _); [by eexists|].
  destruct (1 <? _)%nat eqn:Hlt; [by eexists|].
  apply Nat.ltb_ge in Hlt. lia.
Qed.

(** C3. [validate_targets] raises a [ConfigurationError] exactly when the
    number of output columns over both lists is zero or more than one, and
    returns normally exactly when it is one. *)
Theorem validate_targets_iff (output_con_columns output_cat_columns : list string) :
  let total := length output_con_columns + length output_cat_columns in
  ((∃ e, validate_targets output_con_columns output_cat_columns = Raise e
         ∧ ConfigurationError e)
   ↔ total = 0 ∨ total > 1) ∧
  (validate_targets output_con_columns output_cat_columns = Return tt
   ↔ total = 1).
Proof.
  cbn zeta. unfold validate_targets.
  destruct (length output_con_columns =? 0)%nat eqn:Hcon;
    destruct (length output_cat_columns =? 0)%nat eqn:Hcat; cbn [andb];
    try destruct (1 <? _)%nat eqn:Hmany;
    repeat match goal with
           | H : (_ =? _)%nat = true |- _ => apply Nat.eqb_eq in H
           | H : (_ =? _)%nat = false |- _ => apply Nat.eqb_neq in H
           | H : (_ <? _)%nat = true |- _ => apply Nat.ltb_lt in H
           | H : (_ <? _)%nat = false |- _ => apply Nat.ltb_ge in H
           end;
    (split; split;
      [ intros (e & He & _); first [discriminate He | lia]
      | intros Htotal; first [lia | eexists; split; [reflexivity | by eexists]]
      | intros He; first [discriminate He | lia]
      | intros Htotal; first [lia | reflexivity] ]).
Qed.

(** C4 (as amended). An error of [Path.exists], and an error of
    [pd.read_csv] on a path that exists, comes out of
    [validate_label_file] as it is. When the test for the path returns and,
    for an existing path, the header is read, [validate_label_file] raises
    a [ConfigurationError] exactly when the path does not exist, or the
    header lacks the [ID] column, or some requested input or output column
    is not a column of the header; otherwise it returns normally. *)
Theorem validate_label_file_iff (label_file_path : string)
    (input_cat_columns input_con_columns
     output_cat_columns output_con_columns : list string) :
  let validated :=
    validate_label_file label_file_path input_cat_columns
      input_con_columns output_cat_columns output_con_columns in
  let requested := (input_cat_columns ++ input_con_columns
                    ++ output_cat_columns ++ output_con_columns)%list in
  (∀ e, path_exists label_file_path = Raise e → validated = Raise e) ∧
  (path_exists label_file_path = Return true →
   ∀ e, read_csv_columns label_file_path = Raise e → validated = Raise e) ∧
  (∀ found header,
     path_exists label_file_path = Return found →
     (found = true → read_csv_columns label_file_path = Return header) →
     let invalid :=
       found = false
       ∨ "ID" ∉ header
       ∨ ¬ (∀ c, c ∈ requested → c ∈ header) in
     ((∃ e, validated = Raise e ∧ ConfigurationError e) ↔ invalid) ∧
     (validated = Return tt ↔ ¬ invalid)).
Proof.
  cbn zeta. unfold validate_label_file.
  set (requested := (input_cat_columns ++ _)%list).
  split_and!.
  { intros e ->. reflexivity. }
  { intros -> e ->. reflexivity. }
  intros found header -> Hread. unfold mbind at 1, outcome_bind at 1.
  destruct found; cbn [negb].
  2:{ split; split.
      - by left.
      - intros _. eexists. split; [reflexivity | by eexists].
      - discriminate.
      - intros Hvalid. destruct Hvalid. by left. }
  rewrite (Hread eq_refl). unfold mbind, outcome_bind.
  destruct (bool_decide ("ID" ∈ header)) eqn:Hid; cbn [negb].
  2:{ apply bool_decide_eq_false in Hid. split; split.
      - by right; left.
      - intros _. eexists. split; [reflexivity | by eexists].
      - discriminate.
      - intros Hvalid. destruct Hvalid. by right; left. }
  apply bool_decide_eq_true in Hid.
  assert (Hsize : ((0 <? size ((list_to_set requested : gset string)
                              ∖ list_to_set header))%nat = true)
                  ↔ ¬ (∀ c, c ∈ requested → c ∈ header)).
  { rewrite Nat.ltb_lt. split.
    - intros Hpos Hall. apply size_pos_elem_of in Hpos as [c Hc].
      apply elem_of_difference in Hc as [Hc Hnc].
      apply Hnc, elem_of_list_to_set, Hall. by apply elem_of_list_to_set in Hc.
    - intros Hnot. destruct (decide (size ((list_to_set requested : gset string)
                              ∖ list_to_set header) = 0)) as [Hz|Hnz]; [|lia].
      exfalso. apply Hnot. intros c Hc.
      apply size_empty_inv in Hz.
      destruct (decide (c ∈ header)) as [|Hnc]; [done|].
      exfalso. apply (not_elem_of_empty (C := gset string) c), Hz.
      apply elem_of_difference. split.
      + by apply elem_of_list_to_set.
      + by rewrite elem_of_list_to_set. }
  destruct (0 <? size _)%nat eqn:Hmissing.
  - assert (Hnot := proj1 Hsize eq_refl). split; split.
    + by right; right.
    + intros _. eexists. split; [reflexivity | by eexists].
    + discriminate.
    + intros Hvalid. destruct Hvalid. by right; right.
  - assert (Hall : ∀ c, c ∈ requested → c ∈ header).
    { intros c Hc. destruct (decide (c ∈ header)) as [|Hnc]; [done|].
      exfalso. assert (Hn : ¬ (∀ c, c ∈ requested → c ∈ header)) by (intros H; by apply Hnc, H).
      apply Hsize in Hn. discriminate. }
    split; split.
    + intros (e & He & _). discriminate.
    + intros [Hp | [Hi | Hn]]; [discriminate | done | by destruct Hn].
    + intros _ [Hp | [Hi | Hn]]; [discriminate | done | by destruct Hn].
    + done.
Qed.

(** ** Output folders and the pre-split folder *)

(** C1 (as amended). When [global_output_folder] holds a non-empty string
    [G], whatever the four specific folder fields hold,
    [parse_output_folders] returns a record whose [data_output_folder],
    [feature_selection_output_folder], [modelling_output_folder] and
    [analysis_output_folder] are [B/data], [B/feature_selection],
    [B/modelling] and [B/analysis], where [B] is [G] without its trailing
    path separators: [G] is [B] followed by [n >= 0] separators and [B]
    does not end with one. *)
Theorem parse_output_folders_global_nonempty st l ns B n :
  heap st !! l = Some ns →
  global_output_folder ns = Some (B ++ separators n) →
  ends_with_separator B = false →
  B ++ separators n ≠ "" →
  ∃ l' ns' st',
    parse_output_folders l st = (Return l', st') ∧
    heap st' !! l' = Some ns' ∧
    data_output_folder ns' = Some (B ++ "/data") ∧
    feature_selection_output_folder ns' = Some (B ++ "/feature_selection") ∧
    modelling_output_folder ns' = Some (B ++ "/modelling") ∧
    analysis_output_folder ns' = Some (B ++ "/analysis").
Proof.
  intros Hl HG HB Hne.
  rewrite (parse_output_folders_global _ _ _ _ Hl HG Hne).
  rewrite (rstrip_trailing_separators _ _ HB).
  eexists _, (with_subfolders B ns), _. split; [reflexivity|].
  split; [apply lookup_insert_eq|]. done.
Qed.

(** C2. When [global_output_folder] is unset and at least one of the four
    specific output folders is missing, [parse_output_folders] raises a
    [ConfigurationError] whose message is the one of the first missing
    folder in the order data, feature selection, modelling, analysis; the
    four messages are pairwise different, so the message identifies the
    folder. *)
Theorem parse_output_folders_reports_first_missing st l ns :
  heap st !! l = Some ns →
  truthy (global_output_folder ns) = false →
  (∃ f, is_missing f ns = true) →
  ∃ f,
    is_missing f ns = true ∧
    (∀ f', position f' < position f → is_missing f' ns = false) ∧
    fst (parse_output_folders l st) = Raise (ValueError (missing_message f)) ∧
    ConfigurationError (ValueError (missing_message f)) ∧
    (∀ f', missing_message f' = missing_message f → f' = f).
Proof.
  intros Hl HG Hsome.
  destruct (find_missing_exists _ Hsome) as [f Hfind].
  exists f. rewrite (parse_output_folders_specific _ _ _ Hl HG), Hfind.
  apply find_first_missing in Hfind as [Hf Hbefore].
  repeat split; [done|done|by eexists|].
  intros f'. apply missing_message_inj.
Qed.

(** C10. [parse_output_folders] treats an empty string as an absent
    value. Its outcome is the one it has on the record in which every
    empty output folder is replaced by [None]. With an empty
    [global_output_folder] it derives nothing: it requires the four
    specific folders and returns the copy as it is when all are given.
    And when the global folder is falsy, a specific folder that is the
    empty string is reported as missing, by the same error as an absent
    one, as soon as the folders checked before it are given. *)
Theorem parse_output_folders_empty_string_as_absent (h : gmap ref Namespace) tr l ns :
  fst (parse_output_folders l (mkState (<[l := ns]> h) tr)) =
    fst (parse_output_folders l
           (mkState (<[l := empty_folders_as_absent ns]> h) tr)) ∧
  (global_output_folder ns = Some "" →
     ∃ res st',
       parse_output_folders l (mkState (<[l := ns]> h) tr) = (res, st') ∧
       ((∃ f, is_missing f ns = true) → ∃ f, res = Raise (ValueError (missing_message f))) ∧
       ((∀ f, is_missing f ns = false) →
          ∃ l', res = Return l' ∧ heap st' !! l' = Some ns)) ∧
  (∀ f,
     truthy (global_output_folder ns) = false →
     folder_of f ns = Some "" →
     (∀ f', position f' < position f → is_missing f' ns = false) →
     fst (parse_output_folders l (mkState (<[l := ns]> h) tr))
       = Raise (ValueError (missing_message f)) ∧
     ConfigurationError (ValueError (missing_message f))).
Proof.
  set (st := mkState (<[l := ns]> h) tr).
  assert (Hl : heap st !! l = Some ns) by apply lookup_insert_eq.
  split_and!.
  - set (st0 := mkState (<[l := empty_folders_as_absent ns]> h) tr).
    assert (Hl0 : heap st0 !! l = Some (empty_folders_as_absent ns))
      by apply lookup_insert_eq.
    assert (Hdom : dom (heap st0) = dom (heap st))
      by (cbn [heap st st0]; by rewrite !dom_insert_L).
    destruct (truthy (global_output_folder ns)) eqn:HG.
    + destruct (global_output_folder ns) as [G|] eqn:HG'; [|done].
      assert (G ≠ "") as Hne by (intros ->; done).
      assert (HG0 : global_output_folder (empty_folders_as_absent ns) = Some G).
      { cbn. rewrite HG'. cbn. destruct (String.eqb_spec G ""); done. }
      rewrite (parse_output_folders_global _ _ _ _ Hl HG' Hne).
      rewrite (parse_output_folders_global _ _ _ _ Hl0 HG0 Hne).
      cbn [fst]. by rewrite Hdom.
    + assert (HG0 : truthy (global_output_folder (empty_folders_as_absent ns)) = false)
        by (cbn; by rewrite truthy_absent_if_empty).
      rewrite (parse_output_folders_specific _ _ _ Hl HG).
      rewrite (parse_output_folders_specific _ _ _ Hl0 HG0).
      cbn [fst]. rewrite Hdom. cbn [find check_order].
      by rewrite !is_missing_empty_folders_as_absent.
  - intros HG. assert (HG' : truthy (global_output_folder ns) = false) by by rewrite HG.
    eexists _, _. split; [exact (parse_output_folders_specific _ _ _ Hl HG')|].
    split.
    + intros Hsome. destruct (find_missing_exists _ Hsome) as [f ->]. eauto.
    + intros Hnone. cbn [find check_order]. rewrite !Hnone.
      eexists. split; [done|]. apply lookup_insert_eq.
  - intros f HG Hf Hbefore.
    rewrite (parse_output_folders_specific _ _ _ Hl HG).
    assert (Hfind : find (λ f, is_missing f ns) check_order = Some f).
    { apply find_first_missing. split; [|done]. unfold is_missing. by rewrite Hf. }
    rewrite Hfind. split; [done|by eexists].
Qed.

(** C6. If [ids] exists directly under the genotype data root,
    [_add_pre_split_folder_if_present] returns a record whose
    [pre_split_folder] is that path, whatever the field held before; the
    other fields are those of the input. *)
Theorem add_pre_split_folder_overrides st l ns :
  heap st !! l = Some ns →
  path_exists (path_join (genotype_data_path ns) "ids") = Return true →
  ∃ l' ns' st',
    _add_pre_split_folder_if_present l st = (Return l', st') ∧
    heap st' !! l' = Some ns' ∧
    pre_split_folder ns' = Some (path_join (genotype_data_path ns) "ids") ∧
    ns' = set_pre_split_folder (pre_split_folder ns') ns.
Proof.
  intros Hl Hids. rewrite (add_pre_split_folder_found _ _ _ Hl Hids).
  eexists _, _, _. split; [reflexivity|].
  split; [apply lookup_insert_eq|]. done.
Qed.

(** C9. [parse_output_folders] and [_add_pre_split_folder_if_present]
    leave every object that exists when they are called as it was, the
    record they are given included, whether they return or raise, and the
    reference they return is a new object, different from the one they are
    given. [_add_pre_split_folder_if_present] returns whenever the test
    for [ids] does. *)
Theorem copy_on_write st l ns :
  heap st !! l = Some ns →
  (∃ res st',
     parse_output_folders l st = (res, st') ∧
     (∀ r, r ∈ dom (heap st) → heap st' !! r = heap st !! r) ∧
     heap st' !! l = Some ns ∧
     (∀ l', res = Return l' →
        (l' ∉ dom (heap st)) ∧ l' ≠ l ∧ is_Some (heap st' !! l'))) ∧
  (∃ res st',
     _add_pre_split_folder_if_present l st = (res, st') ∧
     (∀ r, r ∈ dom (heap st) → heap st' !! r = heap st !! r) ∧
     heap st' !! l = Some ns ∧
     (∀ l', res = Return l' →
        (l' ∉ dom (heap st)) ∧ l' ≠ l ∧ is_Some (heap st' !! l')) ∧
     (∀ ids_exists,
        path_exists (path_join (genotype_data_path ns) "ids") = Return ids_exists →
        ∃ l', res = Return l')).
Proof.
  intros Hl.
  assert (Hin : l ∈ dom (heap st)) by (apply elem_of_dom; eauto).
  assert (Hframe : ∀ ns' r, r ∈ dom (heap st) →
            <[fresh (dom (heap st)) := ns']> (heap st) !! r = heap st !! r)
    by (intros; by apply alloc_frame).
  assert (Hnew : (fresh (dom (heap st)) ∉ dom (heap st)) ∧ fresh (dom (heap st)) ≠ l)
    by (split; [apply is_fresh | by eapply fresh_ref_ne]).
  split.
  - destruct (truthy (global_output_folder ns)) eqn:HG.
    + destruct (global_output_folder ns) as [G|] eqn:HG'; [|done].
      assert (G ≠ "") as Hne by (intros ->; done).
      eexists _, _. split; [exact (parse_output_folders_global _ _ _ _ Hl HG' Hne)|].
      cbn [heap]. split; [by auto|]. split; [by rewrite Hframe|].
      intros l' [= <-]. destruct Hnew. split_and!; [done|done|].
      rewrite lookup_insert_eq. eauto.
    + eexists _, _. split; [exact (parse_output_folders_specific _ _ _ Hl HG)|].
      cbn [heap]. split; [by auto|]. split; [by rewrite Hframe|].
      intros l' Hres. destruct (find _ _); [done|]. injection Hres as <-.
      destruct Hnew. split_and!; [done|done|].
      rewrite lookup_insert_eq. eauto.
  - destruct (path_exists (path_join (genotype_data_path ns) "ids"))
      as [[]|e] eqn:Hids.
    + eexists _, _. split; [exact (add_pre_split_folder_found _ _ _ Hl Hids)|].
      cbn [heap]. destruct Hnew.
      split_and!; [by auto|by rewrite Hframe| |by eauto].
      intros l' [= <-]. split_and!; [done|done|].
      rewrite lookup_insert_eq. eauto.
    + eexists _, _. split; [exact (add_pre_split_folder_not_found _ _ _ Hl Hids)|].
      cbn [heap]. destruct Hnew.
      split_and!; [by auto|by rewrite Hframe| |by eauto].
      intros l' [= <-]. split_and!; [done|done|].
      rewrite lookup_insert_eq. eauto.
    + eexists _, _. split; [exact (add_pre_split_folder_error _ _ _ _ Hl Hids)|].
      cbn [heap]. split_and!; [by auto|by rewrite Hframe|done|done].
Qed.

(** ** The configuration builders, evaluated *)

Ltac eval_builder :=
  cbv [build_data_config build_feature_selection_config build_modelling_config
       build_analysis_config extract_from_namespace data_keys
       feature_selection_keys modelling_keys analysis_keys foldl mbind
       outcome_bind mret outcome_ret getattr_by_name vars assoc String.eqb
       Ascii.eqb Bool.eqb].

Lemma build_data_config_eq ns :
  build_data_config ns = Return
    (<["output_format" := VStr "deeplake"]>
       (<["pre_split_folder" := of_optional (pre_split_folder ns)]>
          (<["output_name" := VStr (output_name ns)]>
             (<["data_output_folder" := of_optional (data_output_folder ns)]>
                (<["label_file_path" := VStr (label_file_path ns)]>
                   (<["genotype_data_path" := VStr (genotype_data_path ns)]> ∅)))))).
Proof. eval_builder. reflexivity. Qed.

Lemma build_feature_selection_config_eq ns :
  build_feature_selection_config ns = Return
    (<["gwas_p_value_threshold" := VFloat (gwas_p_value_threshold ns)]>
       (<["n_dl_feature_selection_folds" := VInt (n_dl_feature_selection_folds ns)]>
          (<["feature_selection" := of_optional (feature_selection ns)]>
             (<["feature_selection_output_folder" :=
                  of_optional (feature_selection_output_folder ns)]> ∅)))).
Proof. eval_builder. reflexivity. Qed.

Lemma build_modelling_config_eq ns :
  build_modelling_config ns = Return
    (<["do_test" := VBool (do_test ns)]>
       (<["output_con_columns" := VList (output_con_columns ns)]>
          (<["output_cat_columns" := VList (output_cat_columns ns)]>
             (<["input_con_columns" := VList (input_con_columns ns)]>
                (<["input_cat_columns" := VList (input_cat_columns ns)]>
                   (<["modelling_output_folder" :=
                        of_optional (modelling_output_folder ns)]> ∅)))))).
Proof. eval_builder. reflexivity. Qed.

Lemma build_analysis_config_eq ns :
  build_analysis_config ns = Return
    (<["analysis_output_folder" := of_optional (analysis_output_folder ns)]> ∅).
Proof. eval_builder. reflexivity. Qed.

(** C7. For every arguments record the four builders return mappings whose
    key sets are exactly their declared key lists (the data config has
    [output_format] in addition), are pairwise disjoint, and, apart from
    [output_format], are all fields that the parser declares. *)
Theorem config_key_sets_disjoint ns :
  ∃ d f m a : config,
    build_data_config ns = Return d ∧
    build_feature_selection_config ns = Return f ∧
    build_modelling_config ns = Return m ∧
    build_analysis_config ns = Return a ∧
    dom d = list_to_set data_keys ∪ {["output_format"]} ∧
    dom f = list_to_set feature_selection_keys ∧
    dom m = list_to_set modelling_keys ∧
    dom a = list_to_set analysis_keys ∧
    dom d ## dom f ∧ dom d ## dom m ∧ dom d ## dom a ∧
    dom f ## dom m ∧ dom f ## dom a ∧ dom m ## dom a ∧
    (dom d ∪ dom f ∪ dom m ∪ dom a) ∖ {["output_format"]}
      ⊆ list_to_set cli_fields ∧
    cli_fields = (vars ns).*1.
Proof.
  eexists _, _, _, _.
  split; [apply build_data_config_eq|].
  split; [apply build_feature_selection_config_eq|].
  split; [apply build_modelling_config_eq|].
  split; [apply build_analysis_config_eq|].
  rewrite !dom_insert_L, !dom_empty_L.
  split_and!.
  all: apply (bool_decide_unpack _); vm_compute; exact I.
Qed.

(** C8. [build_data_config] maps [output_format] to ["deeplake"]; its five
    other entries are the fields [genotype_data_path], [label_file_path],
    [data_output_folder], [output_name] and [pre_split_folder] of the
    arguments record as they are, and it has no further entry. *)
Theorem build_data_config_entries ns :
  ∃ d : config,
    build_data_config ns = Return d ∧
    d !! "output_format" = Some (VStr "deeplake") ∧
    d !! "genotype_data_path" = Some (VStr (genotype_data_path ns)) ∧
    d !! "label_file_path" = Some (VStr (label_file_path ns)) ∧
    d !! "data_output_folder" = Some (of_optional (data_output_folder ns)) ∧
    d !! "output_name" = Some (VStr (output_name ns)) ∧
    d !! "pre_split_folder" = Some (of_optional (pre_split_folder ns)) ∧
    (∀ key, key ≠ "output_format" → d !! key =
       if bool_decide (key ∈ data_keys) then assoc key (vars ns) else None).
Proof.
  eexists. split; [apply build_data_config_eq|].
  split_and!; try by simplify_map_eq.
  intros key Hkey. rewrite lookup_insert_ne by done.
  destruct (decide (key = "pre_split_folder")) as [->|];
    [by rewrite lookup_insert_eq|rewrite lookup_insert_ne by done].
  destruct (decide (key = "output_name")) as [->|];
    [by rewrite lookup_insert_eq|rewrite lookup_insert_ne by done].
  destruct (decide (key = "data_output_folder")) as [->|];
    [by rewrite lookup_insert_eq|rewrite lookup_insert_ne by done].
  destruct (decide (key = "label_file_path")) as [->|];
    [by rewrite lookup_insert_eq|rewrite lookup_insert_ne by done].
  destruct (decide (key = "genotype_data_path")) as [->|];
    [by rewrite lookup_insert_eq|rewrite lookup_insert_ne by done].
  rewrite lookup_empty, bool_decide_eq_false_2; [done|].
  unfold data_keys. rewrite !elem_of_cons, elem_of_nil.
  intros [?|[?|[?|[?|[?|[]]]]]]; done.
Qed.

(** ** [run] up to the first failing validator *)

Lemma call_lift_eq {A} fn (o : outcome A) st :
  call fn (lift o) st = (o, mkState (heap st) (trace st ++ [Call fn])).
Proof. reflexivity. Qed.

Lemma validator_calls_untouched evs :
  forallb is_validator_call evs = true → pipeline_untouched evs.
Proof.
  intros Hall.
  assert (Hev : ∀ ev, ev ∈ evs → is_validator_call ev = true).
  { intros ev Hev. apply list_elem_of_In in Hev.
    by apply (proj1 (forallb_forall _ _) Hall). }
  unfold pipeline_untouched.
  split_and!;
    try (intros Hin; apply Hev in Hin; vm_compute in Hin; discriminate Hin).
  - intros task Hin. apply Hev in Hin. discriminate Hin.
  - intros tasks workers sched Hin. apply Hev in Hin. discriminate Hin.
Qed.

Lemma run_preflight st l ns e :
  heap st !! l = Some ns →
  first_failure (preflight ns) = Some e →
  ∃ evs,
    run l st = (Raise e, mkState (heap st) (trace st ++ evs)) ∧
    forallb is_validator_call evs = true.
Proof.
  intros Hl Hfail. unfold run. cbn [preflight first_failure] in Hfail.
  mstep.
  destruct (validate_geno_data_path (genotype_data_path ns)) as [[]|e1] eqn:E1.
  2:{ injection Hfail as ->. erewrite bind_Raise by apply call_lift_eq.
      by exists [Call "validate_geno_data_path"]. }
  erewrite bind_Return by apply call_lift_eq. cbn [heap trace]. mstep.
  destruct (validate_label_file _ _ _ _ _) as [[]|e2] eqn:E2.
  2:{ injection Hfail as ->. erewrite bind_Raise by apply call_lift_eq.
      cbn [heap trace]. rewrite <- !app_assoc.
      by exists [Call "validate_geno_data_path"; Call "validate_label_file"]. }
  erewrite bind_Return by apply call_lift_eq. cbn [heap trace]. mstep.
  destruct (validate_targets _ _) as [[]|e3] eqn:E3.
  2:{ injection Hfail as ->. erewrite bind_Raise by apply call_lift_eq.
      cbn [heap trace]. rewrite <- !app_assoc.
      by exists [Call "validate_geno_data_path"; Call "validate_label_file";
                 Call "validate_targets"]. }
  erewrite bind_Return by apply call_lift_eq. cbn [heap trace].
  destruct validate_plink2_exists_in_path as [[]|e4] eqn:E4; [done|].
  injection Hfail as ->. erewrite bind_Raise by apply call_lift_eq.
  cbn [heap trace]. rewrite <- !app_assoc.
  by exists [Call "validate_geno_data_path"; Call "validate_label_file";
             Call "validate_targets"; Call "validate_plink2_exists_in_path"].
Qed.

Lemma first_failure_exists checks :
  (∃ e, Raise e ∈ checks) → ∃ e, first_failure checks = Some e ∧ Raise e ∈ checks.
Proof.
  induction checks as [|[[]|e0] checks IH]; intros [e He].
  - by apply elem_of_nil in He.
  - apply elem_of_cons in He as [|He]; [done|].
    destruct IH as (e' & Hfirst & Hin); [eauto|].
    exists e'. split; [done|]. by apply list_elem_of_further.
  - exists e0. split; [done|]. apply list_elem_of_here.
Qed.

(** The error of a failing validator is a [ConfigurationError], unless it
    is an error that [validate_label_file] lets through. *)
Lemma preflight_error_kind ns e :
  Raise e ∈ preflight ns →
  ConfigurationError e ∨
  validate_label_file (label_file_path ns)
    (input_cat_columns ns) (input_con_columns ns)
    (output_cat_columns ns) (output_con_columns ns) = Raise e.
Proof.
  unfold preflight. rewrite !elem_of_cons, elem_of_nil.
  intros [H|[H|[H|[H|[]]]]]; revert H.
  - unfold validate_geno_data_path. destruct (geno_data_path_error _); [|done].
    intros [= ->]. left. by eexists.
  - intros <-. by right.
  - unfold validate_targets.
    repeat (match goal with |- context [if ?b then _ else _] => destruct b end;
            [intros [= ->]; left; by eexists|]).
    done.
  - unfold validate_plink2_exists_in_path. destruct (which _); [done|].
    intros [= ->]. left. by eexists.
Qed.

(** C5 (as amended). When any of the four validators fails on the
    arguments, [run] raises the error of the first one that fails, the
    heap is as it was (no copy of the arguments was made) and all that
    [run] has done is calling validators: no folder resolution, no
    pre-split detection, no configuration dict, no root task built or
    submitted. In particular, with more than one output column over both
    lists, [run] raises in that way, and the error is a
    [ConfigurationError] unless it is an error of [Path.exists] or
    [pd.read_csv] that [validate_label_file] lets through. *)
Theorem run_fails_fast st l ns :
  heap st !! l = Some ns →
  ((∃ e, Raise e ∈ preflight ns) →
   ∃ e evs,
     first_failure (preflight ns) = Some e ∧
     Raise e ∈ preflight ns ∧
     run l st = (Raise e, mkState (heap st) (trace st ++ evs)) ∧
     pipeline_untouched evs) ∧
  (length (output_cat_columns ns) + length (output_con_columns ns) > 1 →
   ∃ e evs,
     (ConfigurationError e ∨
      validate_label_file (label_file_path ns)
        (input_cat_columns ns) (input_con_columns ns)
        (output_cat_columns ns) (output_con_columns ns) = Raise e) ∧
     run l st = (Raise e, mkState (heap st) (trace st ++ evs)) ∧
     pipeline_untouched evs).
Proof.
  intros Hl.
  assert (Hany : (∃ e, Raise e ∈ preflight ns) →
    ∃ e evs, first_failure (preflight ns) = Some e ∧ Raise e ∈ preflight ns ∧
      run l st = (Raise e, mkState (heap st) (trace st ++ evs)) ∧
      pipeline_untouched evs).
  { intros Hsome. destruct (first_failure_exists _ Hsome) as (e & Hfirst & Hin).
    destruct (run_preflight _ _ _ _ Hl Hfirst) as (evs & Hrun & Hevs).
    exists e, evs. split_and!; [done|done|done|]. by apply validator_calls_untouched. }
  split; [exact Hany|].
  intros Hmany.
  destruct Hany as (e & evs & _ & Hin & Hrun & Hevs).
  { destruct (validate_targets_many (output_con_columns ns)
                (output_cat_columns ns)) as [msg He]; [lia|].
    exists (ValueError msg). unfold preflight. rewrite He.
    apply list_elem_of_further, list_elem_of_further, list_elem_of_here. }
  exists e, evs. split_and!; [|done|done].
  by apply preflight_error_kind.
Qed.

(** * Further properties of the code *)

(** ** Attribute lookup by name *)

Lemma assoc_None key (l : list (string * value)) :
  assoc key l = None ↔ key ∉ l.*1.
Proof.
  induction l as [|[k v] l IH]; cbn [assoc fmap list_fmap fst].
  - split; [intros _; apply not_elem_of_nil | done].
  - rewrite not_elem_of_cons. destruct (String.eqb_spec key k) as [->|Hne].
    + split; [done | intros [[] _]; done].
    + rewrite IH. split; [by intros ?; split | by intros [_ ?]].
Qed.

Lemma assoc_is_Some key (l : list (string * value)) :
  is_Some (assoc key l) ↔ key ∈ l.*1.
Proof.
  rewrite <- not_eq_None_Some, assoc_None.
  split; [apply dec_stable | auto].
Qed.

Lemma vars_fields ns : (vars ns).*1 = cli_fields.
Proof. reflexivity. Qed.

Lemma getattr_by_name_declared ns key :
  key ∈ cli_fields →
  ∃ v, assoc key (vars ns) = Some v ∧ getattr_by_name ns key = Return v.
Proof.
  intros Hkey. rewrite <- (vars_fields ns) in Hkey.
  apply assoc_is_Some in Hkey as [v Hv]. exists v.
  unfold getattr_by_name. by rewrite Hv.
Qed.

Lemma getattr_by_name_class ns key v :
  key ∉ cli_fields → class_attribute key = Some v →
  getattr_by_name ns key = Return v.
Proof.
  intros Hkey Hclass. rewrite <- (vars_fields ns) in Hkey.
  apply assoc_None in Hkey. unfold getattr_by_name. by rewrite Hkey, Hclass.
Qed.

Lemma getattr_by_name_no_attribute ns key :
  key ∉ cli_fields → class_attribute key = None →
  getattr_by_name ns key = Raise (AttributeError key).
Proof.
  intros Hkey Hclass. rewrite <- (vars_fields ns) in Hkey.
  apply assoc_None in Hkey. unfold getattr_by_name. by rewrite Hkey, Hclass.
Qed.

Lemma getattr_by_name_attribute ns key :
  key ∈ cli_fields ∨ is_Some (class_attribute key) →
  ∃ v, getattr_by_name ns key = Return v.
Proof.
  destruct (decide (key ∈ cli_fields)) as [Hin|Hnot].
  - intros _. destruct (getattr_by_name_declared ns key Hin) as (v & _ & Hv). eauto.
  - intros [|[v Hv]]; [done|]. exists v. by apply getattr_by_name_class.
Qed.

(** ** [extract_from_namespace] on any list of keys *)

Lemma extract_fold_declared ns keys (d0 : config) :
  (∀ k, k ∈ keys → k ∈ cli_fields) →
  ∃ d : config,
    foldl (λ acc key,
             d ← acc;
             v ← getattr_by_name ns key;
             mret (<[key := v]> d))
          (Return d0) keys = Return d ∧
    dom d = dom d0 ∪ list_to_set keys ∧
    (∀ k, k ∈ keys → d !! k = assoc k (vars ns)) ∧
    (∀ k, k ∉ keys → d !! k = d0 !! k).
Proof.
  revert d0. induction keys as [|key keys IH]; intros d0 Hdecl.
  - exists d0. split_and!; [done| | |done].
    + by rewrite list_to_set_nil, (right_id_L ∅ (∪)).
    + intros k Hk. by apply elem_of_nil in Hk.
  - destruct (getattr_by_name_declared ns key) as (v & Hv & Hget);
      [apply Hdecl, list_elem_of_here|].
    destruct (IH (<[key := v]> d0)) as (d & Hfold & Hdom & Hin & Hout).
    { intros k Hk. by apply Hdecl, list_elem_of_further. }
    exists d. cbn [foldl]. unfold mbind at 2 3, outcome_bind. rewrite Hget.
    split_and!.
    + exact Hfold.
    + rewrite Hdom, dom_insert_L, list_to_set_cons.
      apply set_eq. intros x. rewrite !elem_of_union.
      split; [intros [[?|?]|?] | intros [?|[?|?]]]; auto.
    + intros k Hk. destruct (decide (k ∈ keys)) as [|Hnot]; [by apply Hin|].
      apply elem_of_cons in Hk as [->|]; [|done].
      by rewrite (Hout _ Hnot), lookup_insert_eq.
    + intros k Hk. apply not_elem_of_cons in Hk as [Hne Hk].
      by rewrite (Hout _ Hk), lookup_insert_ne.
Qed.

Lemma extract_fold_raised ns keys e :
  foldl (A := outcome config)
        (λ acc key,
           d ← acc;
           v ← getattr_by_name ns key;
           mret (<[key := v]> d))
        (Raise e) keys = Raise e.
Proof. induction keys as [|key keys IH]; [done|]. exact IH. Qed.

Lemma extract_fold_attributes ns keys (d0 : config) :
  (∀ k, k ∈ keys → k ∈ cli_fields ∨ is_Some (class_attribute k)) →
  ∃ d : config,
    foldl (λ acc key,
             d ← acc;
             v ← getattr_by_name ns key;
             mret (<[key := v]> d))
          (Return d0) keys = Return d.
Proof.
  revert d0. induction keys as [|key keys IH]; intros d0 Hattr; [by exists d0|].
  destruct (getattr_by_name_attribute ns key) as [v Hget];
    [apply Hattr, list_elem_of_here|].
  destruct (IH (<[key := v]> d0)) as [d Hfold].
  { intros k Hk. by apply Hattr, list_elem_of_further. }
  exists d. cbn [foldl]. unfold mbind at 2 3, outcome_bind. by rewrite Hget.
Qed.

(** When every key is a field the parser declares, [extract_from_namespace]
    returns a dict whose keys are exactly the keys asked for, each mapped
    to the attribute of that name; keys asked for twice do no harm. *)
Theorem extract_from_namespace_declared ns keys :
  (∀ k, k ∈ keys → k ∈ cli_fields) →
  ∃ d : config,
    extract_from_namespace ns keys = Return d ∧
    dom d = list_to_set keys ∧
    (∀ k, k ∈ keys → is_Some (d !! k) ∧ d !! k = assoc k (vars ns)).
Proof.
  intros Hdecl.
  destruct (extract_fold_declared ns keys ∅ Hdecl) as (d & Hfold & Hdom & Hin & _).
  exists d. split_and!.
  - exact Hfold.
  - by rewrite Hdom, dom_empty_L, (left_id_L ∅ (∪)).
  - intros k Hk. rewrite (Hin _ Hk). split; [|done].
    apply assoc_is_Some. rewrite vars_fields. by apply Hdecl.
Qed.

(** When some key is no attribute of the arguments, neither a field the
    parser declares nor an attribute of the class, [extract_from_namespace]
    raises the [AttributeError] of the first such key, whatever follows
    it. *)
Theorem extract_from_namespace_undeclared ns before key after :
  (∀ k, k ∈ before → k ∈ cli_fields ∨ is_Some (class_attribute k)) →
  key ∉ cli_fields →
  class_attribute key = None →
  extract_from_namespace ns (before ++ key :: after) = Raise (AttributeError key).
Proof.
  intros Hattr Hkey Hclass. unfold extract_from_namespace.
  rewrite foldl_app. cbn [foldl].
  destruct (extract_fold_attributes ns before ∅ Hattr) as (d & Hfold).
  change (mret (M := outcome) (∅ : config)) with (Return (∅ : config)).
  rewrite Hfold. unfold mbind at 2 3, outcome_bind.
  rewrite (getattr_by_name_no_attribute _ _ Hkey Hclass).
  apply extract_fold_raised.
Qed.

(** Every field the parser declares reaches exactly the stage configs,
    except [global_output_folder] and [folds]: the union of the four key
    sets is the set of declared fields without these two, plus
    [output_format]. *)
Theorem config_keys_account_for_fields ns :
  ∃ d f m a : config,
    build_data_config ns = Return d ∧
    build_feature_selection_config ns = Return f ∧
    build_modelling_config ns = Return m ∧
    build_analysis_config ns = Return a ∧
    dom d ∪ dom f ∪ dom m ∪ dom a
      = (list_to_set cli_fields ∖ {["global_output_folder"; "folds"]})
        ∪ {["output_format"]} ∧
    ("global_output_folder" ∉ dom d ∪ dom f ∪ dom m ∪ dom a) ∧
    ("folds" ∉ dom d ∪ dom f ∪ dom m ∪ dom a).
Proof.
  eexists _, _, _, _.
  split; [apply build_data_config_eq|].
  split; [apply build_feature_selection_config_eq|].
  split; [apply build_modelling_config_eq|].
  split; [apply build_analysis_config_eq|].
  rewrite !dom_insert_L, !dom_empty_L.
  split_and!; apply (bool_decide_unpack _); vm_compute; exact I.
Qed.

(** ** [parse_output_folders] as a function of the record *)

Lemma parse_output_folders_resolved st l ns :
  heap st !! l = Some ns →
  parse_output_folders l st =
    (match folders_resolved ns with
     | Return _ => Return (fresh (dom (heap st)))
     | Raise e => Raise e
     end,
     mkState
       (<[fresh (dom (heap st)) :=
            match folders_resolved ns with
            | Return ns' => ns'
            | Raise _ => ns
            end]> (heap st))
       (trace st)).
Proof.
  intros Hl. unfold folders_resolved.
  destruct (truthy (global_output_folder ns)) eqn:HG.
  - destruct (global_output_folder ns) as [G|] eqn:HG'; [|done].
    assert (G ≠ "") as Hne by (intros ->; done).
    by rewrite (parse_output_folders_global _ _ _ _ Hl HG' Hne).
  - rewrite (parse_output_folders_specific _ _ _ Hl HG). by destruct (find _ _).
Qed.

Lemma find_missing_None ns :
  find (λ f, is_missing f ns) check_order = None ↔ ∀ f, is_missing f ns = false.
Proof.
  cbn [find check_order]. split.
  - intros Hfind.
    destruct (is_missing Data ns) eqn:HD; [done|].
    destruct (is_missing FeatureSelection ns) eqn:HF; [done|].
    destruct (is_missing Modelling ns) eqn:HM; [done|].
    destruct (is_missing Analysis ns) eqn:HA; [done|].
    by intros [].
  - intros Hall. by rewrite !Hall.
Qed.

Lemma append_not_empty s c t : String.eqb (s ++ String c t) "" = false.
Proof. by destruct s. Qed.

Lemma append_inv_head s t u : s ++ t = s ++ u → t = u.
Proof.
  induction s as [|c s IH]; [done|].
  rewrite !append_String. intros [= Heq]. by apply IH.
Qed.

Lemma with_subfolders_none_missing gof ns f :
  is_missing f (with_subfolders gof ns) = false.
Proof. unfold is_missing. destruct f; cbn; by rewrite append_not_empty. Qed.

(** Reading any attribute other than the four folders. *)
Ltac other_attribute k :=
  cbn;
  repeat match goal with
         | |- context [String.eqb k ?s] =>
             destruct (String.eqb_spec k s); [first [reflexivity | congruence]|]
         end;
  reflexivity.

Lemma with_subfolders_frame gof ns k :
  k ∉ folder_fields →
  assoc k (vars (with_subfolders gof ns)) = assoc k (vars ns).
Proof.
  unfold folder_fields. rewrite !not_elem_of_cons.
  intros (Hd & Hf & Hm & Ha & _). other_attribute k.
Qed.

Lemma folders_resolved_post ns ns' :
  folders_resolved ns = Return ns' →
  (∀ f, is_missing f ns' = false) ∧
  (∀ k, k ∉ folder_fields → assoc k (vars ns') = assoc k (vars ns)).
Proof.
  unfold folders_resolved.
  destruct (truthy (global_output_folder ns)).
  - intros [= <-]. split.
    + apply with_subfolders_none_missing.
    + apply with_subfolders_frame.
  - destruct (find _ _) eqn:Hfind; [done|]. intros [= <-].
    split; [by apply find_missing_None | done].
Qed.

Lemma folders_resolved_idem ns ns' :
  folders_resolved ns = Return ns' → folders_resolved ns' = Return ns'.
Proof.
  unfold folders_resolved.
  destruct (truthy (global_output_folder ns)) eqn:HG.
  - intros [= <-]. cbn [global_output_folder with_subfolders
      set_analysis_output_folder set_modelling_output_folder
      set_feature_selection_output_folder set_data_output_folder].
    by rewrite HG.
  - destruct (find _ _) eqn:Hfind; [done|]. intros [= <-].
    by rewrite HG, Hfind.
Qed.

Lemma rstrip_decompose s :
  ∃ n, s = rstrip "/" s ++ separators n ∧
       ends_with_separator (rstrip "/" s) = false.
Proof.
  induction s as [|c s (n & Hs & Hend)]; [by exists 0|].
  cbn [rstrip]. destruct (rstrip "/" s) as [|d kept] eqn:Hkept.
  - change ("" ++ separators n) with (separators n) in Hs.
    cbn [char_in]. rewrite orb_false_r.
    destruct (Ascii.eqb_spec c "/") as [->|Hc].
    + exists (S n). by rewrite Hs.
    + exists n. rewrite Hs. split; [done|].
      cbn. by apply Ascii.eqb_neq.
  - exists n. split; [by rewrite append_String, <- Hs | exact Hend].
Qed.

(** For every non-empty global output folder [G], the four folders of the
    record that [parse_output_folders] returns are [B/data],
    [B/feature_selection], [B/modelling] and [B/analysis] for the prefix
    [B] of [G] that is left when the separators at the end of [G] are cut
    off: [B] does not end with a separator and [G] is [B] followed by
    separators only. *)
Theorem parse_output_folders_strips_separators st l ns G :
  heap st !! l = Some ns →
  global_output_folder ns = Some G →
  G ≠ "" →
  ∃ B n l' ns' st',
    G = B ++ separators n ∧
    ends_with_separator B = false ∧
    parse_output_folders l st = (Return l', st') ∧
    heap st' !! l' = Some ns' ∧
    data_output_folder ns' = Some (B ++ "/data") ∧
    feature_selection_output_folder ns' = Some (B ++ "/feature_selection") ∧
    modelling_output_folder ns' = Some (B ++ "/modelling") ∧
    analysis_output_folder ns' = Some (B ++ "/analysis").
Proof.
  intros Hl HG Hne.
  destruct (rstrip_decompose G) as (n & HB & Hend).
  exists (rstrip "/" G), n. eexists _, _, _.
  split; [exact HB|]. split; [exact Hend|].
  split; [exact (parse_output_folders_global _ _ _ _ Hl HG Hne)|].
  split; [apply lookup_insert_eq|]. done.
Qed.

(** With a global output folder, the four folders of the returned record
    are pairwise different. *)
Theorem parse_output_folders_global_distinct st l ns :
  heap st !! l = Some ns →
  truthy (global_output_folder ns) = true →
  ∃ l' ns' st',
    parse_output_folders l st = (Return l', st') ∧
    heap st' !! l' = Some ns' ∧
    NoDup [ data_output_folder ns'; feature_selection_output_folder ns';
            modelling_output_folder ns'; analysis_output_folder ns' ].
Proof.
  intros Hl HG.
  destruct (global_output_folder ns) as [G|] eqn:HG'; [|done].
  assert (G ≠ "") as Hne by (intros ->; done).
  eexists _, _, _.
  split; [exact (parse_output_folders_global _ _ _ _ Hl HG' Hne)|].
  split; [apply lookup_insert_eq|].
  cbn [data_output_folder feature_selection_output_folder
       modelling_output_folder analysis_output_folder with_subfolders
       set_analysis_output_folder set_modelling_output_folder
       set_feature_selection_output_folder set_data_output_folder].
  repeat (apply NoDup_cons; split;
          [rewrite ?elem_of_cons, elem_of_nil;
           intros Hin; repeat destruct Hin as [Hin|Hin]; try done;
           injection Hin as Hin; apply append_inv_head in Hin; discriminate Hin|]).
  apply NoDup_nil_2.
Qed.

(** Whenever [parse_output_folders] returns, each of the four output
    folders of the returned record is a non-empty string, and every other
    attribute is the one of the record it was given. *)
Theorem parse_output_folders_returns_all_folders st l ns l' st' :
  heap st !! l = Some ns →
  parse_output_folders l st = (Return l', st') →
  ∃ ns',
    heap st' !! l' = Some ns' ∧
    (∀ f, ∃ s, folder_of f ns' = Some s ∧ s ≠ "") ∧
    (∀ k, k ∉ folder_fields → assoc k (vars ns') = assoc k (vars ns)).
Proof.
  intros Hl. rewrite (parse_output_folders_resolved _ _ _ Hl).
  destruct (folders_resolved ns) as [ns'|e] eqn:Hres; [|done].
  intros [= <- <-]. exists ns'. split; [apply lookup_insert_eq|].
  destruct (folders_resolved_post _ _ Hres) as [Hall Hframe].
  split; [|exact Hframe].
  intros f. specialize (Hall f). unfold is_missing, truthy in Hall.
  destruct (folder_of f ns') as [s|]; [|done].
  exists s. split; [done|]. intros ->. done.
Qed.

(** Without a global output folder and with the four specific folders
    given, [parse_output_folders] returns a copy that is equal to its
    argument: the folders are taken as they are written, separators at
    their end included. *)
Theorem parse_output_folders_keeps_specific st l ns :
  heap st !! l = Some ns →
  truthy (global_output_folder ns) = false →
  (∀ f, is_missing f ns = false) →
  ∃ l' st',
    parse_output_folders l st = (Return l', st') ∧
    l' ≠ l ∧
    heap st' !! l' = Some ns.
Proof.
  intros Hl HG Hall.
  rewrite (parse_output_folders_specific _ _ _ Hl HG).
  rewrite (proj2 (find_missing_None ns) Hall).
  eexists _, _. split; [reflexivity|].
  split; [by eapply fresh_ref_ne | apply lookup_insert_eq].
Qed.

(** [parse_output_folders] is idempotent: on the record it returned it
    returns again, and the second copy is equal to the first. *)
Theorem parse_output_folders_idempotent st l ns l1 st1 :
  heap st !! l = Some ns →
  parse_output_folders l st = (Return l1, st1) →
  ∃ l2 st2,
    parse_output_folders l1 st1 = (Return l2, st2) ∧
    l2 ≠ l1 ∧
    heap st2 !! l2 = heap st1 !! l1 ∧
    is_Some (heap st1 !! l1).
Proof.
  intros Hl. rewrite (parse_output_folders_resolved _ _ _ Hl).
  destruct (folders_resolved ns) as [ns1|e] eqn:Hres; [|done].
  intros [= <- <-].
  set (st1 := mkState _ _).
  assert (Hl1 : heap st1 !! fresh (dom (heap st)) = Some ns1)
    by apply lookup_insert_eq.
  rewrite (parse_output_folders_resolved _ _ _ Hl1).
  rewrite (folders_resolved_idem _ _ Hres).
  eexists _, _. split; [reflexivity|].
  split; [by eapply fresh_ref_ne|].
  cbn [heap]. rewrite lookup_insert_eq. by rewrite Hl1.
Qed.

(** ** [_add_pre_split_folder_if_present] as a function of the record *)

Lemma add_pre_split_folder_detected st l ns ids_exists :
  heap st !! l = Some ns →
  path_exists (ids_path ns) = Return ids_exists →
  _add_pre_split_folder_if_present l st =
    (Return (fresh (dom (heap st))),
     mkState (<[fresh (dom (heap st)) := pre_split_detected ids_exists ns]> (heap st))
             (trace st ++ pre_split_log ids_exists ns)).
Proof.
  intros Hl Hids. unfold pre_split_detected, pre_split_log, ids_path in *.
  destruct ids_exists.
  - exact (add_pre_split_folder_found _ _ _ Hl Hids).
  - rewrite (add_pre_split_folder_not_found _ _ _ Hl Hids).
    by rewrite app_nil_r.
Qed.

(** [_add_pre_split_folder_if_present] raises only when the test for
    [ids] under the genotype root raises, and then that error, with
    nothing logged. When [ids] exists it logs one message and the copy has
    the [ids] path as [pre_split_folder]; when it does not, it logs
    nothing and the copy it returns is equal to its argument, so a
    [pre_split_folder] given by the user is kept. *)
Theorem add_pre_split_folder_outcomes st l ns :
  heap st !! l = Some ns →
  ∃ res st',
    _add_pre_split_folder_if_present l st = (res, st') ∧
    match path_exists (path_join (genotype_data_path ns) "ids") with
    | Raise e => res = Raise e ∧ trace st' = trace st
    | Return true =>
        ∃ l' ns' msg,
          res = Return l' ∧ heap st' !! l' = Some ns' ∧
          pre_split_folder ns'
            = Some (path_join (genotype_data_path ns) "ids") ∧
          trace st' = (trace st ++ [LoggerInfo msg])%list
    | Return false =>
        ∃ l', res = Return l' ∧ heap st' !! l' = Some ns ∧ trace st' = trace st
    end.
Proof.
  intros Hl.
  destruct (path_exists (path_join (genotype_data_path ns) "ids"))
    as [[]|e] eqn:Hids.
  - eexists _, _.
    split; [exact (add_pre_split_folder_found _ _ _ Hl Hids)|].
    eexists _, _, _. split; [reflexivity|].
    split; [apply lookup_insert_eq|]. done.
  - eexists _, _.
    split; [exact (add_pre_split_folder_not_found _ _ _ Hl Hids)|].
    eexists. split; [reflexivity|]. split; [apply lookup_insert_eq | done].
  - eexists _, _.
    split; [exact (add_pre_split_folder_error _ _ _ _ Hl Hids)|]. done.
Qed.

Lemma folders_resolved_keeps ns ns1 :
  folders_resolved ns = Return ns1 →
  folds ns1 = folds ns ∧
  genotype_data_path ns1 = genotype_data_path ns ∧
  pre_split_folder ns1 = pre_split_folder ns.
Proof.
  unfold folders_resolved. destruct (truthy _); [by intros [= <-]|].
  destruct (find _ _); [done|]. by intros [= <-].
Qed.

Lemma folders_resolved_ids_path ns ns1 :
  folders_resolved ns = Return ns1 → ids_path ns1 = ids_path ns.
Proof.
  intros Hres. unfold ids_path.
  by destruct (folders_resolved_keeps _ _ Hres) as (_ & -> & _).
Qed.

Lemma folders_resolved_returns ns :
  (truthy (global_output_folder ns) = true ∨ (∀ f, is_missing f ns = false))
  ↔ ∃ ns1, folders_resolved ns = Return ns1.
Proof.
  unfold folders_resolved. destruct (truthy (global_output_folder ns)).
  - split; [eauto | by left].
  - destruct (find _ _) eqn:Hfind.
    + split.
      * intros [|Hall]; [done|].
        apply find_missing_None in Hall. congruence.
      * by intros [? ?].
    + split; [eauto|]. intros _. right. by apply find_missing_None.
Qed.

Lemma folders_resolved_pre_split_detected ids_exists ns :
  folders_resolved (pre_split_detected ids_exists ns) =
    match folders_resolved ns with
    | Return ns' => Return (pre_split_detected ids_exists ns')
    | Raise e => Raise e
    end.
Proof.
  unfold pre_split_detected. destruct ids_exists.
  - unfold folders_resolved, ids_path.
    cbn [global_output_folder set_pre_split_folder].
    destruct (truthy (global_output_folder ns)); [done|].
    change (find (λ f, is_missing f (set_pre_split_folder _ ns)) check_order)
      with (find (λ f, is_missing f ns) check_order).
    by destruct (find _ _).
  - by destruct (folders_resolved ns).
Qed.

(** Both orders of the passes when the test for [ids] answers. *)
Lemma passes_commute_tested st l ns ids_exists :
  heap st !! l = Some ns →
  path_exists (ids_path ns) = Return ids_exists →
  ∃ o sa sb,
    (parse_output_folders l ≫= _add_pre_split_folder_if_present) st = (o, sa) ∧
    (_add_pre_split_folder_if_present l ≫= parse_output_folders) st = (o, sb) ∧
    (∀ r, o = Return r → is_Some (heap sa !! r) ∧ heap sa !! r = heap sb !! r).
Proof.
  intros Hl Hids.
  set (l1 := fresh (dom (heap st))).
  set (detected := pre_split_detected ids_exists).
  assert (Hb : ∃ sb,
    (_add_pre_split_folder_if_present l ≫= parse_output_folders) st
    = (match folders_resolved ns with
       | Return _ => Return (fresh (dom (<[l1 := detected ns]> (heap st))))
       | Raise e => Raise e
       end, sb) ∧
    ∀ ns', folders_resolved ns = Return ns' →
      heap sb !! fresh (dom (<[l1 := detected ns]> (heap st)))
      = Some (detected ns')).
  { exists (mkState
      (<[fresh (dom (<[l1 := detected ns]> (heap st))) :=
           match folders_resolved ns with
           | Return ns' => detected ns'
           | Raise _ => detected ns
           end]> (<[l1 := detected ns]> (heap st)))
      (trace st ++ pre_split_log ids_exists ns)).
    split.
    - erewrite bind_Return by exact (add_pre_split_folder_detected _ _ _ _ Hl Hids).
      rewrite (parse_output_folders_resolved _ _ (detected ns))
        by apply lookup_insert_eq.
      cbn [heap trace]. unfold detected.
      rewrite folders_resolved_pre_split_detected.
      destruct (folders_resolved ns); reflexivity.
    - intros ns' Hres. cbn [heap]. rewrite Hres. apply lookup_insert_eq. }
  destruct Hb as (sb & Hb & Hsb).
  rewrite Hb.
  destruct (folders_resolved ns) as [ns'|e] eqn:Hres.
  - assert (Hids' : path_exists (ids_path ns') = Return ids_exists)
      by (by rewrite (folders_resolved_ids_path _ _ Hres)).
    eexists _, _, sb. split.
    + erewrite bind_Return; last first.
      { rewrite (parse_output_folders_resolved _ _ _ Hl), Hres. reflexivity. }
      rewrite (add_pre_split_folder_detected _ _ ns' ids_exists)
        by (first [apply lookup_insert_eq | exact Hids']).
      cbn [heap trace]. rewrite !dom_insert_L. reflexivity.
    + split; [by rewrite !dom_insert_L|].
      intros r [= <-]. cbn [heap]. rewrite lookup_insert_eq.
      specialize (Hsb ns' eq_refl). unfold l1 in Hsb.
      rewrite dom_insert_L in Hsb. rewrite Hsb. eauto.
  - eexists _, _, sb. split.
    + erewrite bind_Raise; [reflexivity|].
      rewrite (parse_output_folders_resolved _ _ _ Hl), Hres. reflexivity.
    + split; [reflexivity | done].
Qed.

(** Both orders of the passes when the test for [ids] raises: both raise,
    and the same error unless an output folder is missing. *)
Lemma passes_commute_untested st l ns e :
  heap st !! l = Some ns →
  path_exists (ids_path ns) = Raise e →
  ∃ ea sa sb,
    (parse_output_folders l ≫= _add_pre_split_folder_if_present) st
      = (Raise ea, sa) ∧
    (_add_pre_split_folder_if_present l ≫= parse_output_folders) st
      = (Raise e, sb) ∧
    ((∃ ns1, folders_resolved ns = Return ns1) → ea = e).
Proof.
  intros Hl Hids.
  assert (Hb : ∃ sb,
    (_add_pre_split_folder_if_present l ≫= parse_output_folders) st = (Raise e, sb)).
  { eexists. erewrite bind_Raise; [reflexivity|].
    exact (add_pre_split_folder_error _ _ _ _ Hl Hids). }
  destruct Hb as [sb Hb].
  destruct (folders_resolved ns) as [ns1|e1] eqn:Hres.
  - exists e. eexists _, sb. split; [|by split].
    erewrite bind_Return; last first.
    { rewrite (parse_output_folders_resolved _ _ _ Hl), Hres. reflexivity. }
    apply (add_pre_split_folder_error _ _ ns1); [apply lookup_insert_eq|].
    unfold ids_path in *.
    by destruct (folders_resolved_keeps _ _ Hres) as (_ & -> & _).
  - exists e1. eexists _, sb. split; [|split; [done|]].
    + erewrite bind_Raise; [reflexivity|].
      rewrite (parse_output_folders_resolved _ _ _ Hl), Hres. reflexivity.
    + by intros [? ?].
Qed.

(** The two passes commute: folder resolution followed by pre-split
    detection, and pre-split detection followed by folder resolution,
    return together, and then the same reference to equal records, or
    raise together. They raise the same error whenever the test for [ids]
    answers or no output folder is missing; when the test raises and a
    folder is missing, each order raises the error it meets first. *)
Theorem passes_commute st l ns :
  heap st !! l = Some ns →
  ∃ oa ob sa sb,
    (parse_output_folders l ≫= _add_pre_split_folder_if_present) st = (oa, sa) ∧
    (_add_pre_split_folder_if_present l ≫= parse_output_folders) st = (ob, sb) ∧
    (∀ r, oa = Return r ∨ ob = Return r →
          oa = ob ∧ is_Some (heap sa !! r) ∧ heap sa !! r = heap sb !! r) ∧
    ((∃ ids_exists,
        path_exists (path_join (genotype_data_path ns) "ids") = Return ids_exists)
     ∨ truthy (global_output_folder ns) = true
     ∨ (∀ f, is_missing f ns = false) →
     oa = ob).
Proof.
  intros Hl.
  destruct (path_exists (ids_path ns)) as [ids_exists|e] eqn:Hids.
  - destruct (passes_commute_tested _ _ _ _ Hl Hids) as (o & sa & sb & Ha & Hb & Hr).
    exists o, o, sa, sb. split_and!; [done|done| |done].
    intros r [Ho|Ho]; (split; [done | by apply Hr]).
  - destruct (passes_commute_untested _ _ _ _ Hl Hids) as (ea & sa & sb & Ha & Hb & He).
    exists (Raise ea), (Raise e), sa, sb. split_and!; [done|done| |].
    + by intros r [|].
    + unfold ids_path in Hids. rewrite Hids.
      intros [[? [=]]|Hfolders]. apply folders_resolved_returns in Hfolders.
      by rewrite (He Hfolders).
Qed.

(** ** [run] after the validators *)

Lemma call_eq {A} fn (m : M A) st :
  call fn m st = m (mkState (heap st) (trace st ++ [Call fn])).
Proof. reflexivity. Qed.

Lemma preflight_passed ns :
  first_failure (preflight ns) = None →
  validate_geno_data_path (genotype_data_path ns) = Return tt ∧
  validate_label_file (label_file_path ns)
    (input_cat_columns ns) (input_con_columns ns)
    (output_cat_columns ns) (output_con_columns ns) = Return tt ∧
  validate_targets (output_con_columns ns) (output_cat_columns ns) = Return tt ∧
  validate_plink2_exists_in_path = Return tt.
Proof.
  cbn [preflight first_failure].
  destruct (validate_geno_data_path _) as [[]|]; [|done].
  destruct (validate_label_file _ _ _ _ _) as [[]|]; [|done].
  destruct (validate_targets _ _) as [[]|]; [|done].
  by destruct validate_plink2_exists_in_path as [[]|].
Qed.

Lemma run_validated st l ns :
  heap st !! l = Some ns →
  first_failure (preflight ns) = None →
  run l st =
    match folders_resolved ns with
    | Raise e =>
        (Raise e,
         mkState (<[fresh (dom (heap st)) := ns]> (heap st))
                 (trace st ++ calls_to_resolution))
    | Return ns1 =>
        let h1 := <[fresh (dom (heap st)) := ns1]> (heap st) in
        match path_exists (ids_path ns) with
        | Raise e =>
            (Raise e,
             mkState (<[fresh (dom h1) := ns1]> h1)
                     (trace st ++ calls_to_resolution
                      ++ [Call "_add_pre_split_folder_if_present"]))
        | Return ids_exists =>
            let ns2 := pre_split_detected ids_exists ns1 in
            (Return tt,
             mkState (<[fresh (dom h1) := ns2]> h1)
                     (trace st ++ calls_to_resolution
                      ++ [Call "_add_pre_split_folder_if_present"]
                      ++ pre_split_log ids_exists ns1
                      ++ calls_of_builders
                      ++ [Construct (root_task_of ns2);
                          LuigiBuild [root_task_of ns2] 1 true]))
        end
    end.
Proof.
  intros Hl Hpass.
  destruct (preflight_passed _ Hpass) as (E1 & E2 & E3 & E4).
  unfold run. mstep.
  erewrite bind_Return by (rewrite call_lift_eq, E1; reflexivity).
  cbn [heap trace]. mstep.
  erewrite bind_Return by (rewrite call_lift_eq, E2; reflexivity).
  cbn [heap trace]. mstep.
  erewrite bind_Return by (rewrite call_lift_eq, E3; reflexivity).
  cbn [heap trace].
  erewrite bind_Return by (rewrite call_lift_eq, E4; reflexivity).
  cbn [heap trace].
  destruct (folders_resolved ns) as [ns1|e] eqn:Hres.
  - erewrite bind_Return; last first.
    { rewrite call_eq, (parse_output_folders_resolved _ _ ns) by exact Hl.
      rewrite Hres. reflexivity. }
    cbn [heap trace]. cbv zeta.
    rewrite <- (folders_resolved_ids_path _ _ Hres).
    destruct (path_exists (ids_path ns1)) as [ids_exists|e] eqn:Hids.
    + erewrite bind_Return; last first.
      { rewrite call_eq, (add_pre_split_folder_detected _ _ ns1 ids_exists)
          by (first [apply lookup_insert_eq | exact Hids]).
        reflexivity. }
      cbn [heap trace]. mstep.
      erewrite bind_Return
        by (rewrite call_lift_eq, build_data_config_eq; reflexivity).
      cbn [heap trace].
      erewrite bind_Return
        by (rewrite call_lift_eq, build_feature_selection_config_eq; reflexivity).
      cbn [heap trace].
      erewrite bind_Return
        by (rewrite call_lift_eq, build_modelling_config_eq; reflexivity).
      cbn [heap trace].
      erewrite bind_Return
        by (rewrite call_lift_eq, build_analysis_config_eq; reflexivity).
      cbn [heap trace]. mstep.
      erewrite bind_Return by apply emit_eq.
      rewrite emit_eq. cbn [heap trace]. cbv zeta.
      unfold root_task_of.
      rewrite build_data_config_eq, build_feature_selection_config_eq,
        build_modelling_config_eq, build_analysis_config_eq.
      cbn [built]. unfold calls_to_resolution, calls_of_builders.
      rewrite <- !app_assoc. reflexivity.
    + erewrite bind_Raise; last first.
      { rewrite call_eq. apply (add_pre_split_folder_error _ _ ns1);
          [apply lookup_insert_eq | exact Hids]. }
      cbn [heap trace]. unfold calls_to_resolution.
      rewrite <- !app_assoc. reflexivity.
  - erewrite bind_Raise; last first.
    { rewrite call_eq, (parse_output_folders_resolved _ _ ns) by exact Hl.
      rewrite Hres. reflexivity. }
    cbn [heap trace]. unfold calls_to_resolution.
    rewrite <- !app_assoc. reflexivity.
Qed.

Lemma pre_split_log_cases ids_exists ns :
  pre_split_log ids_exists ns = []
  ∨ ∃ msg, pre_split_log ids_exists ns = [LoggerInfo msg].
Proof. unfold pre_split_log. destruct ids_exists; [right; by eexists | by left]. Qed.

(** When the four validators pass, the output folders can be resolved (a
    global folder, or all four specific ones) and the test for [ids]
    answers, [run] returns, having called every step once and in order,
    logged at most the pre-split message, built one root task, with the
    fold specification of the arguments, and handed exactly that task to
    the scheduler, once, with one worker and the local scheduler. The
    arguments object is as it was. *)
Theorem run_submits_once st l ns ids_exists :
  heap st !! l = Some ns →
  first_failure (preflight ns) = None →
  truthy (global_output_folder ns) = true ∨ (∀ f, is_missing f ns = false) →
  path_exists (path_join (genotype_data_path ns) "ids") = Return ids_exists →
  ∃ st' log task,
    run l st = (Return tt, st') ∧
    trace st' =
      (trace st
       ++ [ Call "validate_geno_data_path"; Call "validate_label_file";
            Call "validate_targets"; Call "validate_plink2_exists_in_path";
            Call "parse_output_folders";
            Call "_add_pre_split_folder_if_present" ]
       ++ log
       ++ [ Call "build_data_config"; Call "build_feature_selection_config";
            Call "build_modelling_config"; Call "build_analysis_config";
            Construct task; LuigiBuild [task] 1 true ])%list ∧
    (log = [] ∨ ∃ msg, log = [LoggerInfo msg]) ∧
    task_folds task = folds ns ∧
    heap st' !! l = Some ns.
Proof.
  intros Hl Hpass Hfolders Hids.
  apply folders_resolved_returns in Hfolders as [ns1 Hres].
  rewrite (run_validated _ _ _ Hl Hpass), Hres. cbv zeta.
  unfold ids_path. rewrite Hids.
  eexists _, (pre_split_log ids_exists ns1),
    (root_task_of (pre_split_detected ids_exists ns1)).
  split; [reflexivity|]. cbn [heap trace].
  split_and!.
  - reflexivity.
  - apply pre_split_log_cases.
  - cbn [task_folds root_task_of].
    destruct (folders_resolved_keeps _ _ Hres) as [<- _].
    unfold pre_split_detected. by destruct ids_exists.
  - assert (Hl1 : <[fresh (dom (heap st)) := ns1]> (heap st) !! l = Some ns).
    { rewrite lookup_insert_ne by (by eapply fresh_ref_ne). exact Hl. }
    rewrite lookup_insert_ne by (by eapply fresh_ref_ne). exact Hl1.
Qed.

(** [run] returns exactly when the four validators pass, there is a global
    output folder or all four specific ones, and the test for [ids]
    answers; in every other case it raises. *)
Theorem run_returns_iff st l ns :
  heap st !! l = Some ns →
  (∃ st', run l st = (Return tt, st'))
  ↔ first_failure (preflight ns) = None
    ∧ (truthy (global_output_folder ns) = true ∨ (∀ f, is_missing f ns = false))
    ∧ (∃ ids_exists,
         path_exists (path_join (genotype_data_path ns) "ids") = Return ids_exists).
Proof.
  intros Hl. split.
  - intros [st' Hrun].
    destruct (first_failure (preflight ns)) as [e|] eqn:Hfirst.
    + destruct (run_preflight _ _ _ _ Hl Hfirst) as (evs & Hraise & _).
      rewrite Hraise in Hrun. discriminate Hrun.
    + split; [done|].
      rewrite (run_validated _ _ _ Hl Hfirst) in Hrun.
      destruct (folders_resolved ns) as [ns1|e] eqn:Hres; [|discriminate Hrun].
      split; [apply folders_resolved_returns; eauto|].
      cbv zeta in Hrun. unfold ids_path in Hrun.
      destruct (path_exists _) as [ids_exists|e]; [eauto | discriminate Hrun].
  - intros (Hpass & Hfolders & ids_exists & Hids).
    apply folders_resolved_returns in Hfolders as [ns1 Hres].
    rewrite (run_validated _ _ _ Hl Hpass), Hres. cbv zeta.
    unfold ids_path. rewrite Hids. eauto.
Qed.

(** When the four validators pass but there is no global output folder and
    a specific one is missing, [run] raises the error of the first missing
    folder right after the call of [parse_output_folders]: no pre-split
    detection, no configuration dict, no task built or handed to the
    scheduler. The arguments object is as it was. *)
Theorem run_missing_folder_raises st l ns :
  heap st !! l = Some ns →
  first_failure (preflight ns) = None →
  truthy (global_output_folder ns) = false →
  (∃ f, is_missing f ns = true) →
  ∃ f st',
    is_missing f ns = true ∧
    (∀ f', position f' < position f → is_missing f' ns = false) ∧
    run l st = (Raise (ValueError (missing_message f)), st') ∧
    trace st' =
      (trace st
       ++ [ Call "validate_geno_data_path"; Call "validate_label_file";
            Call "validate_targets"; Call "validate_plink2_exists_in_path";
            Call "parse_output_folders" ])%list ∧
    heap st' !! l = Some ns.
Proof.
  intros Hl Hpass HG Hsome.
  destruct (find_missing_exists _ Hsome) as [f Hfind].
  assert (Hres : folders_resolved ns = Raise (ValueError (missing_message f)))
    by (unfold folders_resolved; by rewrite HG, Hfind).
  apply find_first_missing in Hfind as [Hf Hbefore].
  rewrite (run_validated _ _ _ Hl Hpass), Hres.
  eexists f, _. split_and!; [done|done|reflexivity|reflexivity|].
  cbn [heap]. rewrite lookup_insert_ne by (by eapply fresh_ref_ne). exact Hl.
Qed.

Lemma built_folder_entries ns :
  built (build_data_config ns) !! "data_output_folder"
    = Some (of_optional (data_output_folder ns)) ∧
  built (build_data_config ns) !! "output_format" = Some (VStr "deeplake") ∧
  built (build_data_config ns) !! "pre_split_folder"
    = Some (of_optional (pre_split_folder ns)) ∧
  built (build_feature_selection_config ns) !! "feature_selection_output_folder"
    = Some (of_optional (feature_selection_output_folder ns)) ∧
  built (build_modelling_config ns) !! "modelling_output_folder"
    = Some (of_optional (modelling_output_folder ns)) ∧
  built (build_analysis_config ns) !! "analysis_output_folder"
    = Some (of_optional (analysis_output_folder ns)).
Proof.
  rewrite build_data_config_eq, build_feature_selection_config_eq,
    build_modelling_config_eq, build_analysis_config_eq.
  cbn [built]. split_and!; by simplify_map_eq.
Qed.

(** With the validators passing, a non-empty global output folder [B]
    followed by separators, and the test for [ids] answering, the task
    handed to the scheduler carries, in each stage config, the sub-folder
    of that stage under [B]; its data config has [output_format] set to
    ["deeplake"], and as [pre_split_folder] the [ids] path when it exists
    and the value given by the user otherwise. *)
Theorem run_configs_carry_folders st l ns B n ids_exists :
  heap st !! l = Some ns →
  first_failure (preflight ns) = None →
  global_output_folder ns = Some (B ++ separators n) →
  ends_with_separator B = false →
  B ++ separators n ≠ "" →
  path_exists (path_join (genotype_data_path ns) "ids") = Return ids_exists →
  ∃ st' evs task,
    run l st = (Return tt, st') ∧
    trace st' = (trace st ++ evs ++ [Construct task; LuigiBuild [task] 1 true])%list ∧
    task_data_config task !! "data_output_folder" = Some (VStr (B ++ "/data")) ∧
    task_feature_selection_config task !! "feature_selection_output_folder"
      = Some (VStr (B ++ "/feature_selection")) ∧
    task_modelling_config task !! "modelling_output_folder"
      = Some (VStr (B ++ "/modelling")) ∧
    task_analysis_config task !! "analysis_output_folder"
      = Some (VStr (B ++ "/analysis")) ∧
    task_data_config task !! "output_format" = Some (VStr "deeplake") ∧
    task_data_config task !! "pre_split_folder" =
      Some (if ids_exists
            then VStr (path_join (genotype_data_path ns) "ids")
            else of_optional (pre_split_folder ns)).
Proof.
  intros Hl Hpass HG HB Hne Hids.
  assert (Hres : folders_resolved ns = Return (with_subfolders B ns)).
  { unfold folders_resolved. rewrite HG. cbn [default from_option truthy].
    destruct (String.eqb_spec (B ++ separators n) "") as [|_]; [done|].
    cbn [negb]. unfold id. by rewrite (rstrip_trailing_separators _ _ HB). }
  rewrite (run_validated _ _ _ Hl Hpass), Hres. cbv zeta.
  unfold ids_path at 1. rewrite Hids.
  eexists _,
    (calls_to_resolution ++ [Call "_add_pre_split_folder_if_present"]
     ++ pre_split_log ids_exists (with_subfolders B ns) ++ calls_of_builders)%list,
    (root_task_of (pre_split_detected ids_exists (with_subfolders B ns))).
  split; [reflexivity|]. cbn [heap trace].
  split.
  { by rewrite <- !app_assoc. }
  destruct (built_folder_entries (pre_split_detected ids_exists (with_subfolders B ns)))
    as (Hdata & Hformat & Hsplit & Hfeature & Hmodelling & Hanalysis).
  cbn [root_task_of task_data_config task_feature_selection_config
       task_modelling_config task_analysis_config].
  rewrite Hdata, Hformat, Hsplit, Hfeature, Hmodelling, Hanalysis.
  unfold pre_split_detected, ids_path.
  change (genotype_data_path (with_subfolders B ns)) with (genotype_data_path ns).
  by destruct ids_exists.
Qed.

(** With only the two required options given, [run] never reaches folder
    resolution: it raises in the validation phase, a [ConfigurationError]
    unless it is an error that [validate_label_file] lets through, and
    when the genotype data and the label file are valid, the error is the
    one of [validate_targets] for no output column. *)
Theorem run_required_options_only st l genotype label :
  heap st !! l = Some (parser_defaults genotype label) →
  ∃ e evs,
    run l st = (Raise e, mkState (heap st) (trace st ++ evs)) ∧
    (ConfigurationError e ∨ validate_label_file label [] [] [] [] = Raise e) ∧
    pipeline_untouched evs ∧
    (validate_geno_data_path genotype = Return tt →
     path_exists label = Return true →
     ∀ header, read_csv_columns label = Return header →
     "ID" ∈ header →
     e = ValueError
       "At least one output column must be specified as continuous or categorical.").
Proof.
  intros Hl.
  set (ns := parser_defaults genotype label) in *.
  assert (Htargets : validate_targets (output_con_columns ns) (output_cat_columns ns)
    = Raise (ValueError
        "At least one output column must be specified as continuous or categorical."))
    by reflexivity.
  destruct (first_failure_exists (preflight ns)) as (e & Hfirst & Hin).
  { eexists. unfold preflight. rewrite Htargets.
    apply list_elem_of_further, list_elem_of_further, list_elem_of_here. }
  destruct (run_preflight _ _ _ _ Hl Hfirst) as (evs & Hrun & Hevs).
  exists e, evs. split_and!.
  - exact Hrun.
  - exact (preflight_error_kind _ _ Hin).
  - by apply validator_calls_untouched.
  - intros Hgeno Hpath header Hread Hid. revert Hfirst.
    unfold preflight. cbn [first_failure genotype_data_path label_file_path
      input_cat_columns input_con_columns output_cat_columns
      output_con_columns ns parser_defaults].
    rewrite Hgeno. unfold validate_label_file. rewrite Hpath.
    unfold mbind at 1, outcome_bind at 1. cbn [negb].
    rewrite Hread. unfold mbind, outcome_bind.
    rewrite (bool_decide_eq_true_2 _ Hid). cbn [negb app].
    rewrite list_to_set_nil.
    assert (Hempty : (∅ : gset string) ∖ list_to_set header = ∅)
      by (apply leibniz_equiv, empty_difference).
    rewrite Hempty, size_empty. cbn.
    by intros [= <-].
Qed.

End Run.
End Formatting.
End Attributes.

(** * The functions and the theorems on the sample inputs *)

Example rstrip_one_separator : rstrip "/" "out/" = "out".
Proof. reflexivity. Qed.

Example rstrip_many_separators : rstrip "/" "runs/out///" = "runs/out".
Proof. reflexivity. Qed.

Example rstrip_inner_separator : rstrip "/" "runs/out" = "runs/out".
Proof. reflexivity. Qed.

Example rstrip_root : rstrip "/" "/" = "".
Proof. reflexivity. Qed.

Example validate_targets_none :
  validate_targets sample_repr_list [] [] = Raise (ValueError
    "At least one output column must be specified as continuous or categorical.").
Proof. reflexivity. Qed.

Example validate_targets_one :
  validate_targets sample_repr_list [] ["phenotype"] = Return tt.
Proof. reflexivity. Qed.

Example validate_targets_two :
  validate_targets sample_repr_list ["phenotype2"] ["phenotype"]
  = Raise (ValueError
      "Currently only one target column per run is supported. Got [phenotype2] continuous and [phenotype] categorical target columns.").
Proof. reflexivity. Qed.

Example validate_label_file_sample :
  validate_label_file sample_repr_set sample_path_exists sample_read_csv_columns
    "geno/labels.csv" [] ["covariate1"] ["phenotype"] [] = Return tt.
Proof. vm_compute. reflexivity. Qed.

Example validate_label_file_missing_file :
  validate_label_file sample_repr_set sample_path_exists sample_read_csv_columns
    "labels.csv" [] ["covariate1"] ["phenotype"] []
  = Raise (ValueError
      "Label file path labels.csv is invalid. Expected to find labels.csv.").
Proof. vm_compute. reflexivity. Qed.

Example validate_label_file_missing_column :
  validate_label_file sample_repr_set sample_path_exists sample_read_csv_columns
    "geno/labels.csv" [] ["covariate1"] ["phenotype"] ["phenotype2"]
  = Raise (ValueError
      "Label file path geno/labels.csv is invalid. Expected to find columns {phenotype2}.").
Proof. vm_compute. reflexivity. Qed.

(** The label file of the sample world, whose header is read: it is
    valid exactly when it has the [ID] column and the two requested
    columns. *)
Lemma validate_label_file_iff_witness :
  sample_path_exists "geno/labels.csv" = Return true ∧
  sample_read_csv_columns "geno/labels.csv"
    = Return ["ID"; "phenotype"; "covariate1"] ∧
  ((∃ e,
      validate_label_file sample_repr_set sample_path_exists
        sample_read_csv_columns
        "geno/labels.csv" [] ["covariate1"] ["phenotype"] [] = Raise e
      ∧ ConfigurationError e)
   ↔ true = false
     ∨ "ID" ∉ ["ID"; "phenotype"; "covariate1"]
     ∨ ¬ (∀ c, c ∈ ([] ++ ["covariate1"] ++ ["phenotype"] ++ [])%list →
               c ∈ ["ID"; "phenotype"; "covariate1"])) ∧
  (validate_label_file sample_repr_set sample_path_exists sample_read_csv_columns
     "geno/labels.csv" [] ["covariate1"] ["phenotype"] [] = Return tt
   ↔ ¬ (true = false
        ∨ "ID" ∉ ["ID"; "phenotype"; "covariate1"]
        ∨ ¬ (∀ c, c ∈ ([] ++ ["covariate1"] ++ ["phenotype"] ++ [])%list →
                  c ∈ ["ID"; "phenotype"; "covariate1"]))).
Proof.
  split; [vm_compute; reflexivity|]. split; [vm_compute; reflexivity|].
  apply (validate_label_file_iff sample_repr_set sample_path_exists
           sample_read_csv_columns
           "geno/labels.csv" [] ["covariate1"] ["phenotype"] []).
  - vm_compute. reflexivity.
  - intros _. vm_compute. reflexivity.
Defined.

(** C4 as the specification states it does not hold when the label file
    path is a folder: the path exists, yet [validate_label_file] neither
    returns normally nor raises a [ConfigurationError]; the error of
    [pd.read_csv] comes out of it. *)
Lemma validate_label_file_folder_raises_os_error :
  sample_path_exists "geno" = Return true ∧
  validate_label_file sample_repr_set sample_path_exists sample_read_csv_columns
    "geno" [] ["covariate1"] ["phenotype"] []
  = Raise (OSError "[Errno 21] Is a directory: 'geno'") ∧
  ¬ ConfigurationError (OSError "[Errno 21] Is a directory: 'geno'") ∧
  validate_label_file sample_repr_set sample_path_exists sample_read_csv_columns
    "geno" [] ["covariate1"] ["phenotype"] []
  ≠ Return tt.
Proof.
  split_and!.
  - vm_compute. reflexivity.
  - vm_compute. reflexivity.
  - intros [msg Hmsg]. discriminate Hmsg.
  - vm_compute. discriminate.
Qed.

(** With [--global_output_folder out/] the four folders are [out/data],
    [out/feature_selection], [out/modelling] and [out/analysis]. *)
Lemma parse_output_folders_global_nonempty_witness :
  global_output_folder sample_args = Some ("out" ++ separators 1) ∧
  ∃ l' ns' st',
    parse_output_folders 1%positive (sample_state sample_args) = (Return l', st') ∧
    heap st' !! l' = Some ns' ∧
    data_output_folder ns' = Some "out/data" ∧
    feature_selection_output_folder ns' = Some "out/feature_selection" ∧
    modelling_output_folder ns' = Some "out/modelling" ∧
    analysis_output_folder ns' = Some "out/analysis".
Proof.
  split; [reflexivity|].
  apply (parse_output_folders_global_nonempty
           (sample_state sample_args) 1%positive sample_args "out" 1).
  - vm_compute. reflexivity.
  - reflexivity.
  - reflexivity.
  - vm_compute. discriminate.
Defined.

(** C1 as the specification states it does not hold for the empty string:
    with [--global_output_folder ""] and no specific folder the global
    folder is set to a string, yet [parse_output_folders] returns no record,
    it raises the error of the missing data output folder. *)
Lemma parse_output_folders_empty_global_raises :
  global_output_folder sample_args_empty_global = Some "" ∧
  data_output_folder sample_args_empty_global = None ∧
  feature_selection_output_folder sample_args_empty_global = None ∧
  modelling_output_folder sample_args_empty_global = None ∧
  analysis_output_folder sample_args_empty_global = None ∧
  fst (parse_output_folders 1%positive (sample_state sample_args_empty_global))
    = Raise (ValueError missing_data_output_folder) ∧
  ¬ (∃ l' st',
       parse_output_folders 1%positive (sample_state sample_args_empty_global)
       = (Return l', st')).
Proof.
  split_and!; try (vm_compute; reflexivity).
  intros (l' & st' & Hret).
  apply (f_equal fst) in Hret. vm_compute in Hret. discriminate Hret.
Qed.

(** With a data folder and a modelling folder but no global, feature
    selection or analysis folder, the error is the one of the feature
    selection folder. *)
Lemma parse_output_folders_reports_first_missing_witness :
  truthy (global_output_folder sample_args_no_feature_folder) = false ∧
  is_missing FeatureSelection sample_args_no_feature_folder = true ∧
  ∃ f,
    is_missing f sample_args_no_feature_folder = true ∧
    (∀ f', position f' < position f →
           is_missing f' sample_args_no_feature_folder = false) ∧
    fst (parse_output_folders 1%positive (sample_state sample_args_no_feature_folder))
      = Raise (ValueError (missing_message f)) ∧
    ConfigurationError (ValueError (missing_message f)) ∧
    (∀ f', missing_message f' = missing_message f → f' = f).
Proof.
  split; [reflexivity|]. split; [reflexivity|].
  apply (parse_output_folders_reports_first_missing
           (sample_state sample_args_no_feature_folder) 1%positive
           sample_args_no_feature_folder).
  - vm_compute. reflexivity.
  - reflexivity.
  - exists FeatureSelection. reflexivity.
Defined.

(** An explicit [--pre_split_folder my_split] is replaced by [geno/ids]. *)
Lemma add_pre_split_folder_overrides_witness :
  pre_split_folder sample_args_pre_split = Some "my_split" ∧
  ∃ l' ns' st',
    _add_pre_split_folder_if_present sample_path_exists sample_path_join
      1%positive (sample_state sample_args_pre_split) = (Return l', st') ∧
    heap st' !! l' = Some ns' ∧
    pre_split_folder ns' = Some "geno/ids" ∧
    ns' = set_pre_split_folder (pre_split_folder ns') sample_args_pre_split.
Proof.
  split; [reflexivity|].
  apply (add_pre_split_folder_overrides sample_path_exists sample_path_join
           (sample_state sample_args_pre_split) 1%positive sample_args_pre_split).
  - vm_compute. reflexivity.
  - vm_compute. reflexivity.
Defined.

(** Both functions on the sample arguments: the object at reference [1] is
    as it was. *)
Lemma copy_on_write_witness :
  (∃ res st',
     parse_output_folders 1%positive (sample_state sample_args) = (res, st') ∧
     (∀ r, r ∈ dom (heap (sample_state sample_args)) →
           heap st' !! r = heap (sample_state sample_args) !! r) ∧
     heap st' !! 1%positive = Some sample_args ∧
     (∀ l', res = Return l' →
        (l' ∉ dom (heap (sample_state sample_args))) ∧ l' ≠ 1%positive
        ∧ is_Some (heap st' !! l'))) ∧
  (∃ res st',
     _add_pre_split_folder_if_present sample_path_exists sample_path_join
       1%positive (sample_state sample_args) = (res, st') ∧
     (∀ r, r ∈ dom (heap (sample_state sample_args)) →
           heap st' !! r = heap (sample_state sample_args) !! r) ∧
     heap st' !! 1%positive = Some sample_args ∧
     (∀ l', res = Return l' →
        (l' ∉ dom (heap (sample_state sample_args))) ∧ l' ≠ 1%positive
        ∧ is_Some (heap st' !! l')) ∧
     (∀ ids_exists,
        sample_path_exists (sample_path_join (genotype_data_path sample_args) "ids")
        = Return ids_exists →
        ∃ l', res = Return l')).
Proof.
  apply (copy_on_write sample_path_exists sample_path_join
           (sample_state sample_args) 1%positive sample_args).
  vm_compute. reflexivity.
Defined.

(** Where the test for [geno/ids] fails, the error comes out of
    [_add_pre_split_folder_if_present], and the object at reference [1] is
    still as it was. *)
Example add_pre_split_folder_unreadable :
  let result :=
    _add_pre_split_folder_if_present sample_path_exists_unreadable sample_path_join
      1%positive (sample_state sample_args) in
  fst result = Raise (OSError "[Errno 13] Permission denied: 'geno/ids'") ∧
  heap (snd result) !! 1%positive = Some sample_args.
Proof. cbv zeta. split; vm_compute; reflexivity. Qed.

(** [--feature_selection_output_folder ""] is reported as a missing
    feature selection folder. *)
Lemma parse_output_folders_empty_string_as_absent_witness :
  folder_of FeatureSelection sample_args_empty_feature_folder = Some "" ∧
  fst (parse_output_folders 1%positive
         (mkState (<[1%positive := sample_args_empty_feature_folder]> ∅) []))
    = Raise (ValueError (missing_message FeatureSelection)) ∧
  ConfigurationError (ValueError (missing_message FeatureSelection)).
Proof.
  split; [reflexivity|].
  apply (parse_output_folders_empty_string_as_absent ∅ [] 1%positive
           sample_args_empty_feature_folder).
  - reflexivity.
  - reflexivity.
  - intros [] Hbefore; cbn in Hbefore; first [lia | reflexivity].
Defined.

(** With two target columns [run] raises before anything but validators
    has been called. *)
Lemma run_fails_fast_witness :
  length (output_cat_columns sample_args_two_targets)
    + length (output_con_columns sample_args_two_targets) = 2 ∧
  ∃ e evs,
    (ConfigurationError e ∨
     validate_label_file sample_repr_set sample_path_exists sample_read_csv_columns
       (label_file_path sample_args_two_targets)
       (input_cat_columns sample_args_two_targets)
       (input_con_columns sample_args_two_targets)
       (output_cat_columns sample_args_two_targets)
       (output_con_columns sample_args_two_targets) = Raise e) ∧
    run sample_class_attribute sample_repr_list sample_repr_set sample_path_exists
      sample_path_join sample_read_csv_columns sample_which
      sample_geno_data_path_error
      1%positive (sample_state sample_args_two_targets)
    = (Raise e,
       mkState (heap (sample_state sample_args_two_targets))
               (trace (sample_state sample_args_two_targets) ++ evs)) ∧
    pipeline_untouched evs.
Proof.
  split; [reflexivity|].
  apply (run_fails_fast sample_class_attribute sample_repr_list sample_repr_set
           sample_path_exists sample_path_join sample_read_csv_columns
           sample_which sample_geno_data_path_error
           (sample_state sample_args_two_targets) 1%positive
           sample_args_two_targets).
  - vm_compute. reflexivity.
  - cbn. lia.
Defined.

(** C5 as the specification states it does not hold when the label file
    path is a folder: with two target columns [run] raises, before any
    folder resolution, the error of [pd.read_csv], which is no
    [ConfigurationError]. *)
Lemma run_label_folder_raises_os_error :
  length (output_cat_columns sample_args_label_folder)
    + length (output_con_columns sample_args_label_folder) = 2 ∧
  fst (run sample_class_attribute sample_repr_list sample_repr_set
         sample_path_exists sample_path_join sample_read_csv_columns
         sample_which sample_geno_data_path_error
         1%positive (sample_state sample_args_label_folder))
    = Raise (OSError "[Errno 21] Is a directory: 'geno'") ∧
  calls (trace (snd
    (run sample_class_attribute sample_repr_list sample_repr_set
       sample_path_exists sample_path_join sample_read_csv_columns
       sample_which sample_geno_data_path_error
       1%positive (sample_state sample_args_label_folder))))
    = ["validate_geno_data_path"; "validate_label_file"] ∧
  ¬ ConfigurationError (OSError "[Errno 21] Is a directory: 'geno'").
Proof.
  split_and!.
  - reflexivity.
  - vm_compute. reflexivity.
  - vm_compute. reflexivity.
  - intros [msg Hmsg]. discriminate Hmsg.
Qed.

(** The run of the sample arguments reaches the scheduler: every step is
    called, in order, and the root task carries a data config with
    [output_format] set to ["deeplake"]. *)
Example run_sample_args :
  let result :=
    run sample_class_attribute sample_repr_list sample_repr_set sample_path_exists
      sample_path_join sample_read_csv_columns sample_which
      sample_geno_data_path_error
      1%positive (sample_state sample_args) in
  fst result = Return tt ∧
  calls (trace (snd result))
    = [ "validate_geno_data_path"; "validate_label_file"; "validate_targets";
        "validate_plink2_exists_in_path"; "parse_output_folders";
        "_add_pre_split_folder_if_present"; "build_data_config";
        "build_feature_selection_config"; "build_modelling_config";
        "build_analysis_config" ] ∧
  submitted_config (trace (snd result)) "output_format" = Some (VStr "deeplake") ∧
  submitted_config (trace (snd result)) "data_output_folder" = Some (VStr "out/data") ∧
  submitted_config (trace (snd result)) "pre_split_folder" = Some (VStr "geno/ids").
Proof. cbv zeta. split_and!; vm_compute; reflexivity. Qed.

(** * The further properties on the sample inputs *)

(** Asking twice for [folds] gives a dict with the two keys [folds] and
    [do_test]. *)
Lemma extract_from_namespace_declared_witness :
  ∃ d : config,
    extract_from_namespace sample_class_attribute sample_args
      ["folds"; "do_test"; "folds"] = Return d ∧
    dom d = list_to_set ["folds"; "do_test"; "folds"] ∧
    (∀ k, k ∈ ["folds"; "do_test"; "folds"] →
          is_Some (d !! k) ∧ d !! k = assoc k (vars sample_args)).
Proof.
  apply (extract_from_namespace_declared sample_class_attribute sample_args
           ["folds"; "do_test"; "folds"]).
  intros k Hk. unfold cli_fields.
  repeat (apply elem_of_cons in Hk as [->|Hk];
          [apply (bool_decide_unpack _); vm_compute; exact I|]).
  by apply elem_of_nil in Hk.
Defined.

(** An attribute of the class is found by [getattr]: asking for
    [__class__] raises nothing. *)
Example extract_from_namespace_class_attribute :
  ∃ d : config,
    extract_from_namespace sample_class_attribute sample_args ["__class__"]
    = Return d ∧
    d !! "__class__" = Some (VObject "__class__").
Proof. eexists. split; [reflexivity|]. vm_compute. reflexivity. Qed.

(** [output_format] is no attribute of the arguments: asking for it
    raises, whatever is asked for before and after it. *)
Lemma extract_from_namespace_undeclared_witness :
  extract_from_namespace sample_class_attribute sample_args
    (["folds"; "__class__"] ++ "output_format" :: ["do_test"])
  = Raise (AttributeError "output_format").
Proof.
  apply (extract_from_namespace_undeclared sample_class_attribute sample_args
           ["folds"; "__class__"] "output_format" ["do_test"]).
  - intros k Hk.
    apply elem_of_cons in Hk as [->|Hk];
      [left; apply (bool_decide_unpack _); vm_compute; exact I|].
    apply elem_of_cons in Hk as [->|Hk];
      [right; exists (VObject "__class__"); vm_compute; reflexivity|].
    by apply elem_of_nil in Hk.
  - apply (bool_decide_unpack _). vm_compute. exact I.
  - vm_compute. reflexivity.
Defined.

(** [--global_output_folder /] gives [/data], [/feature_selection],
    [/modelling] and [/analysis]. *)
Lemma parse_output_folders_strips_separators_witness :
  global_output_folder sample_args_root = Some "/" ∧
  ∃ B n l' ns' st',
    "/" = B ++ separators n ∧
    ends_with_separator B = false ∧
    parse_output_folders 1%positive (sample_state sample_args_root) = (Return l', st') ∧
    heap st' !! l' = Some ns' ∧
    data_output_folder ns' = Some (B ++ "/data") ∧
    feature_selection_output_folder ns' = Some (B ++ "/feature_selection") ∧
    modelling_output_folder ns' = Some (B ++ "/modelling") ∧
    analysis_output_folder ns' = Some (B ++ "/analysis").
Proof.
  split; [reflexivity|].
  apply (parse_output_folders_strips_separators
           (sample_state sample_args_root) 1%positive sample_args_root "/").
  - vm_compute. reflexivity.
  - reflexivity.
  - discriminate.
Defined.

Lemma parse_output_folders_global_distinct_witness :
  ∃ l' ns' st',
    parse_output_folders 1%positive (sample_state sample_args) = (Return l', st') ∧
    heap st' !! l' = Some ns' ∧
    NoDup [ data_output_folder ns'; feature_selection_output_folder ns';
            modelling_output_folder ns'; analysis_output_folder ns' ].
Proof.
  apply (parse_output_folders_global_distinct
           (sample_state sample_args) 1%positive sample_args).
  - vm_compute. reflexivity.
  - reflexivity.
Defined.

Lemma parse_output_folders_returns_all_folders_witness :
  ∃ ns',
    heap (snd (parse_output_folders 1%positive (sample_state sample_args)))
      !! fresh (dom (heap (sample_state sample_args))) = Some ns' ∧
    (∀ f, ∃ s, folder_of f ns' = Some s ∧ s ≠ "") ∧
    (∀ k, k ∉ folder_fields → assoc k (vars ns') = assoc k (vars sample_args)).
Proof.
  apply (parse_output_folders_returns_all_folders
           (sample_state sample_args) 1%positive sample_args).
  - vm_compute. reflexivity.
  - vm_compute. reflexivity.
Defined.

(** Four specific folders, all [out/]: returned as they are. *)
Lemma parse_output_folders_keeps_specific_witness :
  data_output_folder sample_args_same_folders = Some "out/" ∧
  analysis_output_folder sample_args_same_folders = Some "out/" ∧
  ∃ l' st',
    parse_output_folders 1%positive (sample_state sample_args_same_folders)
    = (Return l', st') ∧
    l' ≠ 1%positive ∧
    heap st' !! l' = Some sample_args_same_folders.
Proof.
  split; [reflexivity|]. split; [reflexivity|].
  apply (parse_output_folders_keeps_specific
           (sample_state sample_args_same_folders) 1%positive
           sample_args_same_folders).
  - vm_compute. reflexivity.
  - reflexivity.
  - intros []; reflexivity.
Defined.

Lemma parse_output_folders_idempotent_witness :
  ∃ l2 st2,
    parse_output_folders (fresh (dom (heap (sample_state sample_args))))
      (snd (parse_output_folders 1%positive (sample_state sample_args)))
    = (Return l2, st2) ∧
    l2 ≠ fresh (dom (heap (sample_state sample_args))) ∧
    heap st2 !! l2
      = heap (snd (parse_output_folders 1%positive (sample_state sample_args)))
          !! fresh (dom (heap (sample_state sample_args))) ∧
    is_Some (heap (snd (parse_output_folders 1%positive (sample_state sample_args)))
               !! fresh (dom (heap (sample_state sample_args)))).
Proof.
  apply (parse_output_folders_idempotent
           (sample_state sample_args) 1%positive sample_args).
  - vm_compute. reflexivity.
  - vm_compute. reflexivity.
Defined.

(** Where no [ids] exists, [--pre_split_folder my_split] is kept and
    nothing is logged; where the test for [ids] fails, its error is
    raised. *)
Lemma add_pre_split_folder_outcomes_witness :
  (∃ res st',
     _add_pre_split_folder_if_present sample_path_exists_no_ids sample_path_join
       1%positive (sample_state sample_args_pre_split) = (res, st') ∧
     ∃ l', res = Return l' ∧ heap st' !! l' = Some sample_args_pre_split ∧
           trace st' = trace (sample_state sample_args_pre_split)) ∧
  (∃ res st',
     _add_pre_split_folder_if_present sample_path_exists_unreadable sample_path_join
       1%positive (sample_state sample_args_pre_split) = (res, st') ∧
     res = Raise (OSError "[Errno 13] Permission denied: 'geno/ids'") ∧
     trace st' = trace (sample_state sample_args_pre_split)).
Proof.
  split.
  - apply (add_pre_split_folder_outcomes sample_path_exists_no_ids sample_path_join
             (sample_state sample_args_pre_split) 1%positive sample_args_pre_split).
    vm_compute. reflexivity.
  - apply (add_pre_split_folder_outcomes sample_path_exists_unreadable
             sample_path_join
             (sample_state sample_args_pre_split) 1%positive sample_args_pre_split).
    vm_compute. reflexivity.
Defined.

Lemma passes_commute_witness :
  ∃ oa ob sa sb,
    (parse_output_folders 1%positive
       ≫= _add_pre_split_folder_if_present sample_path_exists sample_path_join)
      (sample_state sample_args) = (oa, sa) ∧
    (_add_pre_split_folder_if_present sample_path_exists sample_path_join 1%positive
       ≫= parse_output_folders)
      (sample_state sample_args) = (ob, sb) ∧
    (∀ r, oa = Return r ∨ ob = Return r →
          oa = ob ∧ is_Some (heap sa !! r) ∧ heap sa !! r = heap sb !! r) ∧
    ((∃ ids_exists,
        sample_path_exists (sample_path_join (genotype_data_path sample_args) "ids")
        = Return ids_exists)
     ∨ truthy (global_output_folder sample_args) = true
     ∨ (∀ f, is_missing f sample_args = false) →
     oa = ob).
Proof.
  apply (passes_commute sample_path_exists sample_path_join
           (sample_state sample_args) 1%positive sample_args).
  vm_compute. reflexivity.
Defined.

(** Where the test for [geno/ids] fails and the feature selection folder
    is missing, each order of the two passes raises the error it meets
    first. *)
Example passes_raise_what_they_meet_first :
  fst ((parse_output_folders 1%positive
          ≫= _add_pre_split_folder_if_present sample_path_exists_unreadable
               sample_path_join)
         (sample_state sample_args_no_feature_folder))
    = Raise (ValueError missing_feature_selection_output_folder) ∧
  fst ((_add_pre_split_folder_if_present sample_path_exists_unreadable
          sample_path_join 1%positive
          ≫= parse_output_folders)
         (sample_state sample_args_no_feature_folder))
    = Raise (OSError "[Errno 13] Permission denied: 'geno/ids'").
Proof. split; vm_compute; reflexivity. Qed.

(** Where the test for [geno/ids] fails, [run] raises that error after
    folder resolution, and no configuration dict is built. *)
Example run_ids_unreadable :
  let result :=
    run sample_class_attribute sample_repr_list sample_repr_set
      sample_path_exists_unreadable sample_path_join sample_read_csv_columns
      sample_which sample_geno_data_path_error
      1%positive (sample_state sample_args) in
  fst result = Raise (OSError "[Errno 13] Permission denied: 'geno/ids'") ∧
  calls (trace (snd result))
    = [ "validate_geno_data_path"; "validate_label_file"; "validate_targets";
        "validate_plink2_exists_in_path"; "parse_output_folders";
        "_add_pre_split_folder_if_present" ].
Proof. cbv zeta. split; vm_compute; reflexivity. Qed.

Lemma run_submits_once_witness :
  ∃ st' log task,
    run sample_class_attribute sample_repr_list sample_repr_set sample_path_exists
      sample_path_join sample_read_csv_columns sample_which
      sample_geno_data_path_error
      1%positive (sample_state sample_args) = (Return tt, st') ∧
    trace st' =
      (trace (sample_state sample_args)
       ++ [ Call "validate_geno_data_path"; Call "validate_label_file";
            Call "validate_targets"; Call "validate_plink2_exists_in_path";
            Call "parse_output_folders";
            Call "_add_pre_split_folder_if_present" ]
       ++ log
       ++ [ Call "build_data_config"; Call "build_feature_selection_config";
            Call "build_modelling_config"; Call "build_analysis_config";
            Construct task; LuigiBuild [task] 1 true ])%list ∧
    (log = [] ∨ ∃ msg, log = [LoggerInfo msg]) ∧
    task_folds task = folds sample_args ∧
    heap st' !! 1%positive = Some sample_args.
Proof.
  apply (run_submits_once sample_class_attribute sample_repr_list sample_repr_set
           sample_path_exists sample_path_join sample_read_csv_columns
           sample_which sample_geno_data_path_error
           (sample_state sample_args) 1%positive sample_args true).
  - vm_compute. reflexivity.
  - vm_compute. reflexivity.
  - left. reflexivity.
  - vm_compute. reflexivity.
Defined.

(** The sample arguments pass the validators, have a global output folder
    and the test for [geno/ids] answers: [run] returns. *)
Lemma run_returns_iff_witness :
  first_failure
    (preflight sample_repr_list sample_repr_set sample_path_exists
       sample_read_csv_columns sample_which sample_geno_data_path_error
       sample_args) = None ∧
  ∃ st',
    run sample_class_attribute sample_repr_list sample_repr_set sample_path_exists
      sample_path_join sample_read_csv_columns sample_which
      sample_geno_data_path_error
      1%positive (sample_state sample_args) = (Return tt, st').
Proof.
  split; [vm_compute; reflexivity|].
  apply (run_returns_iff sample_class_attribute sample_repr_list sample_repr_set
           sample_path_exists sample_path_join sample_read_csv_columns
           sample_which sample_geno_data_path_error
           (sample_state sample_args) 1%positive sample_args).
  - vm_compute. reflexivity.
  - split; [vm_compute; reflexivity|].
    split; [left; reflexivity|].
    exists true. vm_compute. reflexivity.
Defined.

(** The sample arguments without feature selection folder: [run] raises
    the error of the missing folder right after [parse_output_folders]. *)
Lemma run_missing_folder_raises_witness :
  is_missing FeatureSelection sample_args_no_feature_folder = true ∧
  ∃ f st',
    is_missing f sample_args_no_feature_folder = true ∧
    (∀ f', position f' < position f →
           is_missing f' sample_args_no_feature_folder = false) ∧
    run sample_class_attribute sample_repr_list sample_repr_set sample_path_exists
      sample_path_join sample_read_csv_columns sample_which
      sample_geno_data_path_error
      1%positive (sample_state sample_args_no_feature_folder)
    = (Raise (ValueError (missing_message f)), st') ∧
    trace st' =
      (trace (sample_state sample_args_no_feature_folder)
       ++ [ Call "validate_geno_data_path"; Call "validate_label_file";
            Call "validate_targets"; Call "validate_plink2_exists_in_path";
            Call "parse_output_folders" ])%list ∧
    heap st' !! 1%positive = Some sample_args_no_feature_folder.
Proof.
  split; [reflexivity|].
  apply (run_missing_folder_raises sample_class_attribute sample_repr_list
           sample_repr_set sample_path_exists sample_path_join
           sample_read_csv_columns sample_which sample_geno_data_path_error
           (sample_state sample_args_no_feature_folder) 1%positive
           sample_args_no_feature_folder).
  - vm_compute. reflexivity.
  - vm_compute. reflexivity.
  - reflexivity.
  - exists FeatureSelection. reflexivity.
Defined.

Lemma run_configs_carry_folders_witness :
  ∃ st' evs task,
    run sample_class_attribute sample_repr_list sample_repr_set sample_path_exists
      sample_path_join sample_read_csv_columns sample_which
      sample_geno_data_path_error
      1%positive (sample_state sample_args) = (Return tt, st') ∧
    trace st' = (trace (sample_state sample_args) ++ evs
                 ++ [Construct task; LuigiBuild [task] 1 true])%list ∧
    task_data_config task !! "data_output_folder" = Some (VStr ("out" ++ "/data")) ∧
    task_feature_selection_config task !! "feature_selection_output_folder"
      = Some (VStr ("out" ++ "/feature_selection")) ∧
    task_modelling_config task !! "modelling_output_folder"
      = Some (VStr ("out" ++ "/modelling")) ∧
    task_analysis_config task !! "analysis_output_folder"
      = Some (VStr ("out" ++ "/analysis")) ∧
    task_data_config task !! "output_format" = Some (VStr "deeplake") ∧
    task_data_config task !! "pre_split_folder" =
      Some (VStr (sample_path_join (genotype_data_path sample_args) "ids")).
Proof.
  apply (run_configs_carry_folders sample_class_attribute sample_repr_list
           sample_repr_set sample_path_exists sample_path_join
           sample_read_csv_columns sample_which sample_geno_data_path_error
           (sample_state sample_args) 1%positive sample_args "out" 1 true).
  - vm_compute. reflexivity.
  - vm_compute. reflexivity.
  - reflexivity.
  - reflexivity.
  - discriminate.
  - vm_compute. reflexivity.
Defined.

(** [--genotype_data_path geno --label_file_path geno/labels.csv] and
    nothing else. *)
Lemma run_required_options_only_witness :
  ∃ e evs,
    run sample_class_attribute sample_repr_list sample_repr_set sample_path_exists
      sample_path_join sample_read_csv_columns sample_which
      sample_geno_data_path_error
      1%positive (sample_state (parser_defaults "geno" "geno/labels.csv"))
    = (Raise e,
       mkState (heap (sample_state (parser_defaults "geno" "geno/labels.csv")))
               (trace (sample_state (parser_defaults "geno" "geno/labels.csv")) ++ evs)) ∧
    (ConfigurationError e ∨
     validate_label_file sample_repr_set sample_path_exists sample_read_csv_columns
       "geno/labels.csv" [] [] [] [] = Raise e) ∧
    pipeline_untouched evs ∧
    (validate_geno_data_path sample_geno_data_path_error "geno" = Return tt →
     sample_path_exists "geno/labels.csv" = Return true →
     ∀ header, sample_read_csv_columns "geno/labels.csv" = Return header →
     "ID" ∈ header →
     e = ValueError
       "At least one output column must be specified as continuous or categorical.").
Proof.
  apply (run_required_options_only sample_class_attribute sample_repr_list
           sample_repr_set sample_path_exists sample_path_join
           sample_read_csv_columns sample_which sample_geno_data_path_error
           (sample_state (parser_defaults "geno" "geno/labels.csv")) 1%positive
           "geno" "geno/labels.csv").
  vm_compute. reflexivity.
Defined.
